(** * Cloud Advisor (interactive-qa-system): a shallow embedding of the
      chat client, the API client and the chat relay route.

    Conventions.
    - JavaScript strings are modelled as [string] (a byte string holding the
      UTF-8 encoding of the text). The empty string is the only falsy string.
    - [null] / [undefined] values of type [string | null] are [None].
    - Asynchronous code is modelled in the order in which its awaits resume:
      one submission is a single sequential chain. *)

From Stdlib Require Import Ascii String.
From Stdlib Require Import QArith.
From stdpp Require Import base strings list gmap pretty sorting.

Local Open Scope string_scope.
Local Open Scope Z_scope.
Local Open Scope list_scope.

(** ** JavaScript values used by the code *)

(** JSON values, as produced by [JSON.parse] / consumed by [JSON.stringify].
    Objects keep their members in source order; a number is the rational its
    literal denotes. *)
#[warnings="-register-all"]
Inductive json :=
| JNull
| JBool (b : bool)
| JNum (n : Q)
| JStr (s : string)
| JArr (items : list json)
| JObj (members : list (string * json)).

(** Truthiness of a string: [!!s]. *)
Definition truthy (s : string) : bool := negb (String.eqb s "").

(** Truthiness of a [string | null]. *)
Definition truthy_opt (o : option string) : bool :=
  match o with
  | Some s => truthy s
  | None => false
  end.

(** A thrown value: an [Error] with its message, or a value for which
    [instanceof Error] is false. *)
Inductive Thrown :=
| JsError (message : string)
| NotAnError.

(** ** lib/types.ts *)

Inductive Role := user | assistant.

Global Instance Role_eq_dec : EqDecision Role.
Proof. solve_decision. Defined.

Definition role_name (r : Role) : string :=
  match r with user => "user" | assistant => "assistant" end.

Record ChatMessage := mkChatMessage {
  cm_id : string;
  cm_role : Role;
  cm_content : string
}.

Record Conversation := mkConversation {
  conv_id : string;
  conv_title : option string;
  conv_created_at : string;
  conv_updated_at : string
}.

Record Message := mkMessage {
  msg_id : Z;
  msg_role : Role;
  msg_content : string;
  msg_created_at : string
}.

Record ConversationWithMessages := mkConversationWithMessages {
  cwm_conversation : Conversation;
  cwm_messages : list Message
}.

(** [JSON.stringify] of the objects the client sends, as JSON values. *)
Definition json_of_ChatMessage (m : ChatMessage) : json :=
  JObj [("id", JStr (cm_id m));
        ("role", JStr (role_name (cm_role m)));
        ("content", JStr (cm_content m))].

Definition json_of_new_message (m : Role * string) : json :=
  JObj [("role", JStr (role_name m.1)); ("content", JStr m.2)].

(** ** The network, seen from the browser *)

(** The body of the relay response, as the reader delivers it: the values
    of the successive [reader.read()] calls that are not [done], and how the
    stream ends. A stream that never ends keeps the submission waiting for
    ever and is not represented. *)
Inductive StreamEnd := StreamDone | StreamThrows (e : Thrown).

Record TextStream := mkTextStream {
  ts_chunks : list string;
  ts_end : StreamEnd
}.

(** The requests the client issues. The index is the type of what the client
    reads from a 2xx response ([response.json()], or [response.body] for the
    relay). *)
Inductive Request : Type -> Type :=
| GET_conversations : Request (list Conversation)
| POST_conversations (body : json) : Request Conversation
| GET_conversation (id : string) : Request ConversationWithMessages
| DELETE_conversation (id : string) : Request unit
| POST_messages (id : string) (body : json) : Request (list Message)
| PATCH_conversation (id : string) (body : json) : Request Conversation
| POST_chat (body : json) : Request TextStream.

Inductive Method := GET | POST | PATCH | DELETE.

(** Method and URL of each request, as the source builds them. *)
Definition request_line (BACKEND_URL : string) {A} (r : Request A) : Method * string :=
  match r with
  | GET_conversations => (GET, BACKEND_URL +:+ "/api/conversations")
  | POST_conversations _ => (POST, BACKEND_URL +:+ "/api/conversations")
  | GET_conversation id => (GET, BACKEND_URL +:+ "/api/conversations/" +:+ id)
  | DELETE_conversation id => (DELETE, BACKEND_URL +:+ "/api/conversations/" +:+ id)
  | POST_messages id _ =>
      (POST, BACKEND_URL +:+ "/api/conversations/" +:+ id +:+ "/messages")
  | PATCH_conversation id _ => (PATCH, BACKEND_URL +:+ "/api/conversations/" +:+ id)
  | POST_chat _ => (POST, "/api/chat")
  end.

(** A response: its status, and what reading its body gives
    ([response.json()], or [response.body] for the relay); [None] when the
    body cannot be read that way. *)
Record Response (A : Type) := mkResponse {
  status : nat;
  payload : option A
}.
Arguments mkResponse {A} status payload.
Arguments status {A} r.
Arguments payload {A} r.

(** [response.ok]: the status is in the range 200-299. *)
Definition ok {A} (r : Response A) : bool :=
  ((200 <=? status r) && (status r <=? 299))%nat.

(** What [await fetch(...)] gives: a rejection (network failure) or a
    response. *)
Inductive FetchResult (A : Type) :=
| FetchRejects (e : Thrown)
| Responds (r : Response A).
Arguments FetchRejects {A} e.
Arguments Responds {A} r.

Definition AnyRequest : Type := { A : Type & Request A }.
Definition any {A} (r : Request A) : AnyRequest := existT A r.

Definition is_POST_messages (r : AnyRequest) : bool :=
  match projT2 r with POST_messages _ _ => true | _ => false end.
Definition is_POST_chat (r : AnyRequest) : bool :=
  match projT2 r with POST_chat _ => true | _ => false end.
(** Requests that go to the conversation-persistence backend. *)
Definition is_backend_request (r : AnyRequest) : bool :=
  match projT2 r with POST_chat _ => false | _ => true end.

(** ** A monad for handlers: state plus exceptions

    An exception keeps the state changes made before it was thrown. *)
Inductive Outcome (A : Type) :=
| Throws (e : Thrown)
| Returns (a : A).
Arguments Throws {A} e.
Arguments Returns {A} a.

Definition M (S A : Type) : Type := S -> S * Outcome A.

Global Instance M_ret {S} : MRet (M S) := λ A a s, (s, Returns a).
Global Instance M_bind {S} : MBind (M S) := λ A B f m s,
  match m s with
  | (s', Returns a) => f a s'
  | (s', Throws e) => (s', Throws e)
  end.

Definition throw {S A} (e : Thrown) : M S A := λ s, (s, Throws e).

(** [throw new Error(message)] *)
Definition throw_Error {S A} (message : string) : M S A := throw (JsError message).

(** [try { body } catch (err) { handler err }] *)
Definition try_catch {S A} (body : M S A) (handler : Thrown -> M S A) : M S A :=
  λ s, match body s with
       | (s', Returns a) => (s', Returns a)
       | (s', Throws e) => handler e s'
       end.

(** [try { body } finally { cleanup }], for a cleanup that does not throw
    or return. *)
Definition try_finally {S A} (body : M S A) (cleanup : M S unit) : M S A :=
  λ s, match body s with
       | (s', r) => match cleanup s' with
                    | (s'', Returns _) => (s'', r)
                    | (s'', Throws e) => (s'', Throws e)
                    end
       end.

Definition modify {S} (f : S -> S) : M S unit := λ s, (f s, Returns ()).
Definition gets {S A} (f : S -> A) : M S A := λ s, (s, Returns (f s)).

(** ** The platform outside the page

    Everything the page talks to: the servers behind [fetch], the clock and
    the [TextDecoder]. [World] is the state of all of it. *)
Record Platform := mkPlatform {
  World : Type;
  serve : forall A, Request A -> World -> World * FetchResult A;
  Date_now : World -> World * Z;
  Decoder : Type;
  new_TextDecoder : Decoder;
  (** [decoder.decode(value, { stream: true })] *)
  decode : Decoder -> string -> Decoder * string
}.

(** ** app/page.tsx: the state of [Home] *)

Record HomeState := mkHomeState {
  conversations : list Conversation;
  currentConversationId : option string;
  sidebarOpen : bool;
  isLoadingConversations : bool;
  backendAvailable : bool;
  messages : list ChatMessage;
  isChatLoading : bool;
  (** the message of the [Error], when there is one *)
  error : option string
}.

(** The initial values of the [useState] calls. *)
Definition initial_HomeState : HomeState :=
  {| conversations := []; currentConversationId := None; sidebarOpen := true;
     isLoadingConversations := true; backendAvailable := true; messages := [];
     isChatLoading := false; error := None |}.

(** The page in its platform: the component state, the world, and what the
    page has done so far (requests sent, toasts shown, and every value given
    to [messages], each of which is rendered), oldest first. *)
Record Page (P : Platform) := mkPage {
  home : HomeState;
  world : World P;
  requests : list AnyRequest;
  toasts : list string;
  transcripts : list (list ChatMessage)
}.
Arguments mkPage {P} home world requests toasts transcripts.
Arguments home {P} p.
Arguments world {P} p.
Arguments requests {P} p.
Arguments toasts {P} p.
Arguments transcripts {P} p.

Definition start_Page {P} (h : HomeState) (w : World P) : Page P :=
  mkPage h w [] [] [].

(** ** Vocabulary for statements about streams *)

(** The text of a list of chunks, in order. *)
Definition concat_text (chunks : list string) : string := foldr String.append "" chunks.

(** The successive values of [assistantContent] while [chunks] arrive,
    starting from [acc]. *)
Fixpoint running (acc : string) (chunks : list string) : list string :=
  match chunks with
  | [] => []
  | chunk :: rest => (acc +:+ chunk) :: running (acc +:+ chunk) rest
  end.

(** How a relay exchange goes for the client: the stream is read to its end,
    or the exchange fails before an assistant entry exists (the fetch
    rejects, the response is not ok or has no body), or a read throws after
    [values] were delivered. *)
Inductive RelayOutcome :=
| Completed (values : list string)
| FailedBeforeStream (e : Thrown)
| FailedMidStream (values : list string) (e : Thrown).

Definition classify (res : FetchResult TextStream) : RelayOutcome :=
  match res with
  | FetchRejects e => FailedBeforeStream e
  | Responds response =>
      if negb (ok response) then FailedBeforeStream (JsError "Failed to get response")
      else match payload response with
           | None => FailedBeforeStream (JsError "No response body")
           | Some body =>
               match ts_end body with
               | StreamDone => Completed (ts_chunks body)
               | StreamThrows e => FailedMidStream (ts_chunks body) e
               end
           end
  end.

Definition relay_failed (o : RelayOutcome) : Prop :=
  match o with
  | Completed _ => False
  | _ => True
  end.

(** The body of the append-messages call for one exchange. *)
Definition pair_body (message assistantContent : string) : json :=
  JArr [json_of_new_message (user, message); json_of_new_message (assistant, assistantContent)].

(** Requests other than the relay request and the append-messages call. *)
Definition quiet (r : AnyRequest) : Prop :=
  is_POST_messages r = false /\ is_POST_chat r = false.

Section Client.
Context {P : Platform}.

Local Abbreviation Action := (M (Page P)).

Definition with_home (f : HomeState -> HomeState) (p : Page P) : Page P :=
  mkPage (f (home p)) (world p) (requests p) (toasts p) (transcripts p).

Definition setConversations (v : list Conversation) : Action unit :=
  modify (with_home (λ h,
    mkHomeState v (currentConversationId h) (sidebarOpen h) (isLoadingConversations h)
      (backendAvailable h) (messages h) (isChatLoading h) (error h))).

Definition setCurrentConversationId (v : option string) : Action unit :=
  modify (with_home (λ h,
    mkHomeState (conversations h) v (sidebarOpen h) (isLoadingConversations h)
      (backendAvailable h) (messages h) (isChatLoading h) (error h))).

Definition setIsLoadingConversations (v : bool) : Action unit :=
  modify (with_home (λ h,
    mkHomeState (conversations h) (currentConversationId h) (sidebarOpen h) v
      (backendAvailable h) (messages h) (isChatLoading h) (error h))).

Definition setBackendAvailable (v : bool) : Action unit :=
  modify (with_home (λ h,
    mkHomeState (conversations h) (currentConversationId h) (sidebarOpen h)
      (isLoadingConversations h) v (messages h) (isChatLoading h) (error h))).

Definition setIsChatLoading (v : bool) : Action unit :=
  modify (with_home (λ h,
    mkHomeState (conversations h) (currentConversationId h) (sidebarOpen h)
      (isLoadingConversations h) (backendAvailable h) (messages h) v (error h))).

Definition setError (v : option string) : Action unit :=
  modify (with_home (λ h,
    mkHomeState (conversations h) (currentConversationId h) (sidebarOpen h)
      (isLoadingConversations h) (backendAvailable h) (messages h) (isChatLoading h) v)).

(** [setMessages(prev => f prev)]; the new value is rendered. *)
Definition updateMessages (f : list ChatMessage -> list ChatMessage) : Action unit :=
  modify (λ p,
    let h := home p in
    let v := f (messages h) in
    mkPage
      (mkHomeState (conversations h) (currentConversationId h) (sidebarOpen h)
         (isLoadingConversations h) (backendAvailable h) v (isChatLoading h) (error h))
      (world p) (requests p) (toasts p) (transcripts p ++ [v])).

(** [setMessages(v)] *)
Definition setMessages (v : list ChatMessage) : Action unit :=
  updateMessages (λ _, v).

(** [toast.error(msg)] *)
Definition toast_error (msg : string) : Action unit :=
  modify (λ p, mkPage (home p) (world p) (requests p) (toasts p ++ [msg]) (transcripts p)).

(** [Date.now()] *)
Definition date_now : Action Z :=
  λ p, let (w, t) := Date_now P (world p) in
       (mkPage (home p) w (requests p) (toasts p) (transcripts p), Returns t).

(** [await fetch(url, init)]: the request is sent (and recorded), the world
    answers; a rejection is thrown. *)
Definition fetch {A} (r : Request A) : Action (Response A) :=
  λ p, let (w, res) := serve P A r (world p) in
       let p' := mkPage (home p) w (requests p ++ [any r]) (toasts p) (transcripts p) in
       match res with
       | FetchRejects e => (p', Throws e)
       | Responds resp => (p', Returns resp)
       end.

(** [await response.json()]; the message of the rejection is the engine's. *)
Definition response_json {A} (response : Response A) : Action A :=
  match payload response with
  | Some a => mret a
  | None => throw_Error "SyntaxError: Unexpected token in JSON"
  end.

(** *** lib/api.ts *)

Definition getConversations : Action (list Conversation) :=
  response ← fetch GET_conversations;
  if negb (ok response) then throw_Error "Failed to fetch conversations"
  else response_json response.

(** [title || null] *)
Definition title_or_null (title : option string) : json :=
  match title with
  | Some t => if truthy t then JStr t else JNull
  | None => JNull
  end.

Definition createConversation (title : option string) : Action Conversation :=
  response ← fetch (POST_conversations (JObj [("title", title_or_null title)]));
  if negb (ok response) then throw_Error "Failed to create conversation"
  else response_json response.

Definition getConversation (id : string) : Action ConversationWithMessages :=
  response ← fetch (GET_conversation id);
  if negb (ok response) then throw_Error "Failed to fetch conversation"
  else response_json response.

Definition deleteConversation (id : string) : Action unit :=
  response ← fetch (DELETE_conversation id);
  if negb (ok response) then throw_Error "Failed to delete conversation"
  else mret ().

Definition addMessages (conversationId : string) (msgs : list (Role * string))
  : Action (list Message) :=
  response ← fetch (POST_messages conversationId (JArr (json_of_new_message <$> msgs)));
  if negb (ok response) then throw_Error "Failed to add messages"
  else response_json response.

Definition updateConversation (id title : string) : Action Conversation :=
  response ← fetch (PATCH_conversation id (JObj [("title", JStr title)]));
  if negb (ok response) then throw_Error "Failed to update conversation"
  else response_json response.

(** *** app/page.tsx: the handlers of [Home] *)

Definition loadConversations : Action unit :=
  try_finally
    (try_catch
       (convs ← getConversations;
        setConversations convs;;
        setBackendAvailable true)
       (λ err,
        toast_error "Failed to load conversations from backend";;
        setBackendAvailable false))
    (setIsLoadingConversations false).

Definition handleNewConversation : Action unit :=
  view ← gets home;
  setMessages [];;
  setCurrentConversationId None;;
  if backendAvailable view then
    try_catch
      (newConv ← createConversation None;
       setCurrentConversationId (Some (conv_id newConv));;
       loadConversations)
      (λ err, toast_error "Failed to create new conversation")
  else mret ().

Definition chat_of_Message (msg : Message) : ChatMessage :=
  {| cm_id := pretty (msg_id msg); cm_role := msg_role msg; cm_content := msg_content msg |}.

Definition handleSelectConversation (id : string) : Action unit :=
  try_catch
    (conv ← getConversation id;
     setCurrentConversationId (Some id);;
     setMessages (chat_of_Message <$> cwm_messages conv))
    (λ err, toast_error "Failed to load conversation").

Definition handleDeleteConversation (id : string) : Action unit :=
  view ← gets home;
  try_catch
    (deleteConversation id;;
     (if decide (currentConversationId view = Some id)
      then setMessages [];; setCurrentConversationId None
      else mret ());;
     loadConversations)
    (λ err, toast_error "Failed to delete conversation").

(** [{ ...m, content: assistantContent }] *)
Definition with_content (m : ChatMessage) (assistantContent : string) : ChatMessage :=
  {| cm_id := cm_id m; cm_role := cm_role m; cm_content := assistantContent |}.

(** [prev.map(m => m.id === assistantId ? { ...m, content: assistantContent } : m)] *)
Definition set_assistant_content (assistantId assistantContent : string)
    (prev : list ChatMessage) : list ChatMessage :=
  (λ m, if String.eqb (cm_id m) assistantId
        then with_content m assistantContent else m) <$> prev.

(** [prev.filter(m => m.content !== '')] *)
Definition drop_empty (prev : list ChatMessage) : list ChatMessage :=
  List.filter (λ m, negb (String.eqb (cm_content m) "")) prev.

(** The transcript once the contents [contents] have been written, one after
    the other, into the entries of [base] whose id is [assistantId]. *)
Definition streamed_into (assistantId : string) (base : list ChatMessage)
    (contents : list string) : list ChatMessage :=
  match last contents with
  | Some a => set_assistant_content assistantId a base
  | None => base
  end.

(** The state variables of the chat itself. *)
Definition chat_fields (h : HomeState) : list ChatMessage * bool * option string :=
  (messages h, isChatLoading h, error h).

(** The [while (true)] loop over [reader.read()]: [values] are the chunks
    still to come, [fin] is how the stream ends after them. The result is
    the final [assistantContent]. *)
Fixpoint read_loop (assistantId : string) (decoder : Decoder P)
    (assistantContent : string) (values : list string) (fin : StreamEnd)
  : Action string :=
  match values with
  | [] =>
      match fin with
      | StreamDone => mret assistantContent
      | StreamThrows e => throw e
      end
  | value :: rest =>
      let (decoder', chunk) := decode P decoder value in
      let assistantContent := assistantContent +:+ chunk in
      updateMessages (set_assistant_content assistantId assistantContent);;
      read_loop assistantId decoder' assistantContent rest fin
  end.

(** The body sent to the relay: [JSON.stringify({ messages: updatedMessages })]. *)
Definition chat_body (updatedMessages : list ChatMessage) : json :=
  JObj [("messages", JArr (json_of_ChatMessage <$> updatedMessages))].

(** [view] stands for the values of the state variables that the closure of
    [submitMessage] captured: the state when the handler is called.

    "Create a new conversation if needed": the result is [convId]. *)
Definition ensure_conversation (view : HomeState) : Action (option string) :=
  let convId := currentConversationId view in
  if negb (truthy_opt convId) && backendAvailable view then
    try_catch
      (newConv ← createConversation None;
       setCurrentConversationId (Some (conv_id newConv));;
       loadConversations;;
       mret (Some (conv_id newConv)))
      (λ err,
       toast_error "Failed to create new conversation";;
       mret convId)
  else mret convId.

(** "Add user message": the result is [updatedMessages]. *)
Definition add_user_message (view : HomeState) (message : string)
  : Action (list ChatMessage) :=
  now ← date_now;
  let userMessage := mkChatMessage (pretty now) user message in
  let updatedMessages := messages view ++ [userMessage] in
  setMessages updatedMessages;;
  mret updatedMessages.

(** "Save to backend": [if (convId && backendAvailable) { ... }] *)
Definition save_to_backend (view : HomeState) (convId : option string)
    (message assistantContent : string) : Action unit :=
  match convId with
  | Some id =>
      if truthy id && backendAvailable view then
        addMessages id [(user, message); (assistant, assistantContent)];;
        (* not awaited; it does not throw *)
        loadConversations
      else mret ()
  | None => mret ()
  end.

(** The [try] block of [submitMessage]. *)
Definition stream_and_save (view : HomeState) (convId : option string)
    (message : string) (updatedMessages : list ChatMessage) : Action unit :=
  response ← fetch (POST_chat (chat_body updatedMessages));
  if negb (ok response) then throw_Error "Failed to get response" else
  match payload response with
  | None => throw_Error "No response body"
  | Some body =>
      let decoder := new_TextDecoder P in
      now ← date_now;
      let assistantId := pretty (now + 1) in
      updateMessages (λ prev, prev ++ [mkChatMessage assistantId assistant ""]);;
      assistantContent ← read_loop assistantId decoder "" (ts_chunks body) (ts_end body);
      save_to_backend view convId message assistantContent
  end.

(** The part of [submitMessage] before its [try] block. *)
Definition opening (message : string)
  : Action (HomeState * option string * list ChatMessage) :=
  view ← gets home;
  setError None;;
  setIsChatLoading true;;
  convId ← ensure_conversation view;
  updatedMessages ← add_user_message view message;
  mret (view, convId, updatedMessages).

(** The [try] / [catch] / [finally] of [submitMessage]. *)
Definition attempt (view : HomeState) (convId : option string) (message : string)
    (updatedMessages : list ChatMessage) : Action unit :=
  try_finally
    (try_catch
       (stream_and_save view convId message updatedMessages)
       (λ err,
        setError (Some (match err with
                        | JsError message => message
                        | NotAnError => "An error occurred"
                        end));;
        updateMessages drop_empty))
    (setIsChatLoading false).

Definition submitMessage (message : string) : Action unit :=
  '(view, convId, updatedMessages) ← opening message;
  attempt view convId message updatedMessages.

(** *** Vocabulary for statements about one submission *)

(** The chunks the decoder yields for the successive [values] of a stream. *)
Fixpoint decode_all (decoder : Decoder P) (values : list string) : list string :=
  match values with
  | [] => []
  | value :: rest =>
      let (decoder', chunk) := decode P decoder value in
      chunk :: decode_all decoder' rest
  end.

(** What the relay answers to the request of this submission. *)
Definition relay_answer (message : string) (p : Page P) : FetchResult TextStream :=
  match opening message p with
  | (q, Returns (_, _, updatedMessages)) =>
      (serve P _ (POST_chat (chat_body updatedMessages)) (world q)).2
  | (_, Throws e) => FetchRejects e
  end.

(** The [convId] of this submission when it reaches the [try] block. *)
Definition conversation_used (message : string) (p : Page P) : option string :=
  match opening message p with
  | (_, Returns (_, convId, _)) => convId
  | (_, Throws _) => None
  end.

End Client.

(** ** app/api/chat/route.ts: the chat relay route *)

Definition SYSTEM_PROMPT : string :=
"You are a knowledgeable and friendly Cloud Advisor specializing in Google Cloud Platform (GCP) and Google Workspace solutions.

Your expertise includes:
- Google Cloud Platform services (Compute Engine, Cloud Storage, BigQuery, Cloud Run, Kubernetes Engine, etc.)
- Google Workspace products (Gmail, Drive, Docs, Sheets, Meet, Admin Console)
- Cloud migration strategies and best practices
- Infrastructure modernization and optimization
- Cloud security and compliance
- Cost optimization and billing management
- DevOps practices and CI/CD pipelines
- Data analytics and machine learning on GCP

Guidelines for your responses:
1. Provide clear, accurate, and actionable advice
2. Break down complex concepts into understandable explanations
3. Include relevant examples when helpful
4. Mention specific Google Cloud products or services when applicable
5. Offer step-by-step guidance for implementation questions
6. Highlight best practices and potential pitfalls
7. Be honest about limitations or when a question is outside your expertise
8. Keep responses concise but comprehensive

When users ask about:
- Pricing: Direct them to Google Cloud's pricing calculator and mention that costs vary by usage
- Certifications: Provide information about Google Cloud certification paths
- Comparisons: Give balanced comparisons with other cloud providers when asked
- Security: Emphasize Google Cloud's security features and compliance certifications

Remember: You're helping businesses and individuals make informed decisions about cloud technology. Be professional, helpful, and encouraging.".

(** The argument of [streamText]. [temperature] is the decimal 0.7. *)
Record StreamTextOptions := mkStreamTextOptions {
  model : string;
  system : string;
  st_messages : list json;
  temperature : Q
}.

(** What the route answers: [new Response(JSON.stringify(v), init)], or the
    text stream response of the SDK. *)
Inductive RouteBody :=
| JsonBody (v : json)
| TextStreamBody (s : TextStream).

Record RouteResponse := mkRouteResponse {
  r_status : nat;
  r_content_type : string;
  r_body : RouteBody
}.

(** [s.includes(needle)] *)
Fixpoint includes (needle s : string) : bool :=
  String.prefix needle s ||
  match s with
  | EmptyString => false
  | String _ s' => includes needle s'
  end.

(** The last member named [k] of a parsed object ([JSON.parse] keeps the
    last of duplicate keys). *)
Fixpoint lookup_member (k : string) (members : list (string * json)) : option json :=
  match members with
  | [] => None
  | (k', v) :: rest =>
      match lookup_member k rest with
      | Some v' => Some v'
      | None => if String.eqb k' k then Some v else None
      end
  end.

(** [const { messages } = body]: [None] is [undefined]. Destructuring [null]
    throws a [TypeError] (the message is the engine's); every other JSON
    value can be destructured, and only objects have a [messages] property. *)
Definition destructure_messages (body : json) : Outcome (option json) :=
  match body with
  | JNull => Throws (JsError "Cannot destructure property 'messages' of 'null' as it is null.")
  | JObj members => Returns (lookup_member "messages" members)
  | _ => Returns None
  end.

(** [!v] for a value that is [undefined] or a JSON value. *)
Definition falsy (v : option json) : bool :=
  match v with
  | None | Some JNull | Some (JBool false) | Some (JStr "") => true
  | Some (JNum n) => Qeq_bool n 0
  | _ => false
  end.

(** [Array.isArray(v)] *)
Definition isArray (v : option json) : bool :=
  match v with
  | Some (JArr _) => true
  | _ => false
  end.

Definition array_items (v : option json) : list json :=
  match v with
  | Some (JArr items) => items
  | _ => []
  end.

Definition json_error_response (status : nat) (message : string) : RouteResponse :=
  mkRouteResponse status "application/json" (JsonBody (JObj [("error", JStr message)])).

(** [result.toTextStreamResponse()]: the SDK answers 200 with the text stream
    as the body. *)
Definition toTextStreamResponse (result : TextStream) : RouteResponse :=
  mkRouteResponse 200 "text/plain; charset=utf-8" (TextStreamBody result).

(** An awaited promise whose fate is known: it resolves or rejects. *)
Definition await {S A} (o : Outcome A) : M S A := λ s, (s, o).

Module ChatRoute.

(** The options of the one call the route makes, for the array [items]. *)
Definition options_for (items : list json) : StreamTextOptions :=
  {| model := "gemini-2.5-flash"; system := SYSTEM_PROMPT;
     st_messages := items; temperature := 7 # 10 |}.

Section Route.
(** The hosted model behind the SDK: [streamText(options)] returns the
    stream of generated text or throws (model construction included). *)
Variable provider : StreamTextOptions -> Outcome TextStream.

(** The state of a request is the list of calls made to the hosted model. *)
Local Abbreviation Handler := (M (list StreamTextOptions)).

Definition streamText (options : StreamTextOptions) : Handler TextStream :=
  λ calls, (calls ++ [options], provider options).

(** [req_json] is what [await req.json()] does: it rejects with a
    [SyntaxError] when the body is not JSON. *)
Definition POST (req_json : Outcome json) : Handler RouteResponse :=
  try_catch
    (body ← await req_json;
     messages ← await (destructure_messages body);
     (* Validate input *)
     if falsy messages || negb (isArray messages) then
       mret (json_error_response 400 "Invalid request: messages array required")
     else
       (* Create streaming response with Gemini *)
       result ← streamText
         {| model := "gemini-2.5-flash";
            system := SYSTEM_PROMPT;
            st_messages := array_items messages;
            temperature := 7 # 10 |};
       mret (toTextStreamResponse result))
    (λ error,
     match error with
     | JsError message =>
         if includes "API key" message then
           mret (json_error_response 500
                   "API key configuration error. Please check your GEMINI_API_KEY.")
         else
           mret (json_error_response 500 "An error occurred while processing your request.")
     | NotAnError =>
         mret (json_error_response 500 "An error occurred while processing your request.")
     end).

(** One request served from scratch: the calls made to the hosted model and
    the response. A handler that throws has no response. *)
Definition handle (req_json : Outcome json) : list StreamTextOptions * option RouteResponse :=
  match POST req_json [] with
  | (calls, Returns response) => (calls, Some response)
  | (calls, Throws _) => (calls, None)
  end.

End Route.
End ChatRoute.

(** ** components/ChatInput.tsx *)

(** [String.prototype.trim] on UTF-8 text. The code points it strips are
    ECMAScript's WhiteSpace and LineTerminator: U+0009..U+000D, U+0020,
    U+00A0, U+1680, U+2000..U+200A, U+2028, U+2029, U+202F, U+205F, U+3000
    and U+FEFF, here by their encodings of one, two and three bytes. *)
Definition ws1 (a : N) : bool :=
  ((9 <=? a) && (a <=? 13) || (a =? 32))%N.

Definition ws2 (a b : N) : bool :=
  ((a =? 194) && (b =? 160))%N.

Definition ws3 (a b c : N) : bool :=
  ((a =? 225) && (b =? 154) && (c =? 128)
   || (a =? 226) && (b =? 128) &&
        ((128 <=? c) && (c <=? 138) || (c =? 168) || (c =? 169) || (c =? 175))
   || (a =? 226) && (b =? 129) && (c =? 159)
   || (a =? 227) && (b =? 128) && (c =? 128)
   || (a =? 239) && (b =? 187) && (c =? 191))%N.

(** Strips the leading bytes that [w1], [w2] and [w3] recognise. *)
Fixpoint strip_leading (w1 : N -> bool) (w2 : N -> N -> bool) (w3 : N -> N -> N -> bool)
    (s : string) : string :=
  match s with
  | EmptyString => EmptyString
  | String a s1 =>
      if w1 (Ascii.N_of_ascii a) then strip_leading w1 w2 w3 s1 else
      match s1 with
      | EmptyString => s
      | String b s2 =>
          if w2 (Ascii.N_of_ascii a) (Ascii.N_of_ascii b) then strip_leading w1 w2 w3 s2 else
          match s2 with
          | EmptyString => s
          | String c s3 =>
              if w3 (Ascii.N_of_ascii a) (Ascii.N_of_ascii b) (Ascii.N_of_ascii c)
              then strip_leading w1 w2 w3 s3 else s
          end
      end
  end.

Definition trimStart (s : string) : string := strip_leading ws1 ws2 ws3 s.

Definition trimEnd (s : string) : string :=
  String.rev (strip_leading ws1 (λ a b, ws2 b a) (λ a b c, ws3 c b a) (String.rev s)).

Definition trim (s : string) : string := trimEnd (trimStart s).

Module ChatInput.

(** The events of the form: typing in the textarea, submitting the form, and
    a key pressed in the textarea. *)
Inductive Event :=
| Change (value : string)
| Submit
| KeyDown (key : string) (shiftKey : bool).

(** A handler gives the new value of [input] and the argument of the
    [onSubmit] call it makes, if it makes one. *)
Definition handleSubmit (isLoading : bool) (input : string) : string * option string :=
  let trimmedInput := trim input in
  if truthy trimmedInput && negb isLoading then ("", Some trimmedInput)
  else (input, None).

Definition handleKeyDown (isLoading : bool) (key : string) (shiftKey : bool)
    (input : string) : string * option string :=
  if String.eqb key "Enter" && negb shiftKey then handleSubmit isLoading input
  else (input, None).

Definition handle (isLoading : bool) (e : Event) (input : string) : string * option string :=
  match e with
  | Change value => (value, None)
  | Submit => handleSubmit isLoading input
  | KeyDown key shiftKey => handleKeyDown isLoading key shiftKey input
  end.

(** [disabled={!input.trim() || isLoading}] of the submit button. *)
Definition submit_disabled (isLoading : bool) (input : string) : bool :=
  negb (truthy (trim input)) || isLoading.

(** One [onSubmit] call, with the [isLoading] prop and the [input] of the
    render in which it is made. *)
Record Call := mkCall {
  call_isLoading : bool;
  call_input : string;
  call_argument : string
}.

(** A session: each event comes with the [isLoading] prop of the render it
    happens in. The result is the final [input] and the [onSubmit] calls, in
    order. *)
Fixpoint run (events : list (bool * Event)) (input : string) : string * list Call :=
  match events with
  | [] => (input, [])
  | (isLoading, e) :: rest =>
      let (input', call) := handle isLoading e input in
      let (final, calls) := run rest input' in
      (final, match call with
              | Some arg => mkCall isLoading input arg :: calls
              | None => calls
              end)
  end.

End ChatInput.

(** ** The conversation store and its CRUD API

    The backend (a FastAPI service over a row store) is not among the
    sources; the client only calls it. Its model below follows the
    specification of the store and of the REST surface. *)
Module Backend.

(** Modelled from the spec: the Conversation entity of the backend, whose
    sources are missing: optional title, creation timestamp and last-updated
    timestamp (the identifier is the key of the table). *)
Record ConversationRow := mkConversationRow {
  title : option string;
  created_at : Z;
  updated_at : Z
}.

(** Modelled from the spec: the Message entity of the backend, whose sources
    are missing: sequence number, owning conversation, role, text content and
    creation timestamp. *)
Record MessageRow := mkMessageRow {
  message_id : Z;
  conversation_id : string;
  role : Role;
  content : string;
  message_created_at : Z
}.

(** Modelled from the spec: the row store of the backend, whose sources are
    missing: the two tables (messages in creation order), the counters the
    identifiers are taken from, and the time of the store. *)
Record Store := mkStore {
  conversation_rows : gmap string ConversationRow;
  message_rows : list MessageRow;
  issued : Z;
  sequence : Z;
  time : Z
}.

Definition empty : Store := mkStore ∅ [] 0 0 0.

Definition conversation_of (id : string) (row : ConversationRow) : Conversation :=
  {| conv_id := id; conv_title := title row;
     conv_created_at := pretty (created_at row);
     conv_updated_at := pretty (updated_at row) |}.

Definition message_of (row : MessageRow) : Message :=
  {| msg_id := message_id row; msg_role := role row; msg_content := content row;
     msg_created_at := pretty (message_created_at row) |}.

(** The messages of a conversation, in order. *)
Definition messages_of (id : string) (s : Store) : list MessageRow :=
  filter (λ m, conversation_id m = id) (message_rows s).

(** Modelled from the spec: the body [{title?: string|null}] of the missing
    create endpoint; any other body is a validation failure. *)
Definition decode_title (body : json) : option (option string) :=
  match body with
  | JObj members =>
      match lookup_member "title" members with
      | None | Some JNull => Some None
      | Some (JStr t) => Some (Some t)
      | Some _ => None
      end
  | _ => None
  end.

Definition decode_role (v : option json) : option Role :=
  match v with
  | Some (JStr s) =>
      if String.eqb s "user" then Some user
      else if String.eqb s "assistant" then Some assistant
      else None
  | _ => None
  end.

Definition decode_new_message (v : json) : option (Role * string) :=
  match v with
  | JObj members =>
      match decode_role (lookup_member "role" members), lookup_member "content" members with
      | Some r, Some (JStr c) => Some (r, c)
      | _, _ => None
      end
  | _ => None
  end.

(** Modelled from the spec: the body of the missing append endpoint, an
    ordered array of [{role, content}]; any other body is a validation
    failure. *)
Definition decode_new_messages (body : json) : option (list (Role * string)) :=
  match body with
  | JArr items => mapM decode_new_message items
  | _ => None
  end.

(** Modelled from the spec: [GET /api/conversations] of the missing backend,
    most recently updated first. *)
Definition list_conversations (s : Store) : Store * Response (list Conversation) :=
  let rows := merge_sort (λ a b, updated_at a.2 >= updated_at b.2)
                (map_to_list (conversation_rows s)) in
  (s, mkResponse 200 (Some ((λ kv, conversation_of kv.1 kv.2) <$> rows))).

(** Modelled from the spec: [POST /api/conversations] of the missing
    backend; the identifier is new and opaque. *)
Definition create_conversation (body : json) (s : Store) : Store * Response Conversation :=
  match decode_title body with
  | None => (s, mkResponse 422 None)
  | Some t =>
      let id := "conv-" +:+ pretty (issued s + 1) in
      let row := mkConversationRow t (time s) (time s) in
      (mkStore (<[id := row]> (conversation_rows s)) (message_rows s)
         (issued s + 1) (sequence s) (time s),
       mkResponse 201 (Some (conversation_of id row)))
  end.

(** Modelled from the spec: [GET /api/conversations/{id}] of the missing
    backend: the conversation plus its ordered messages, or not-found. *)
Definition get_conversation (id : string) (s : Store)
  : Store * Response ConversationWithMessages :=
  match conversation_rows s !! id with
  | None => (s, mkResponse 404 None)
  | Some row =>
      (s, mkResponse 200
            (Some (mkConversationWithMessages (conversation_of id row)
                     (message_of <$> messages_of id s))))
  end.

(** Modelled from the spec: [PATCH /api/conversations/{id}] of the missing
    backend, body [{title: string}]. *)
Definition update_conversation (id : string) (body : json) (s : Store)
  : Store * Response Conversation :=
  match conversation_rows s !! id with
  | None => (s, mkResponse 404 None)
  | Some row =>
      match decode_title body with
      | Some (Some t) =>
          let row' := mkConversationRow (Some t) (created_at row) (time s) in
          (mkStore (<[id := row']> (conversation_rows s)) (message_rows s)
             (issued s) (sequence s) (time s),
           mkResponse 200 (Some (conversation_of id row')))
      | _ => (s, mkResponse 422 None)
      end
  end.

(** Modelled from the spec: [DELETE /api/conversations/{id}] of the missing
    backend: no body; the deletion cascades to the messages of the
    conversation; an unknown id is not-found. *)
Definition delete_conversation (id : string) (s : Store) : Store * Response unit :=
  match conversation_rows s !! id with
  | None => (s, mkResponse 404 None)
  | Some _ =>
      (mkStore (delete id (conversation_rows s))
         (filter (λ m, conversation_id m ≠ id) (message_rows s))
         (issued s) (sequence s) (time s),
       mkResponse 204 None)
  end.

(** The rows of a batch, numbered from [seq + 1]. *)
Fixpoint new_rows (id : string) (seq now : Z) (batch : list (Role * string))
  : list MessageRow :=
  match batch with
  | [] => []
  | (r, c) :: rest => mkMessageRow (seq + 1) id r c now :: new_rows id (seq + 1) now rest
  end.

(** Modelled from the spec: [POST /api/conversations/{id}/messages] of the
    missing backend: the batch is persisted as a unit with assigned ids and
    timestamps and the conversation is touched; an unknown id is not-found
    and persists nothing. *)
Definition add_messages (id : string) (body : json) (s : Store)
  : Store * Response (list Message) :=
  match conversation_rows s !! id with
  | None => (s, mkResponse 404 None)
  | Some row =>
      match decode_new_messages body with
      | None => (s, mkResponse 422 None)
      | Some batch =>
          let rows := new_rows id (sequence s) (time s) batch in
          let row' := mkConversationRow (title row) (created_at row) (time s) in
          (mkStore (<[id := row']> (conversation_rows s)) (message_rows s ++ rows)
             (issued s) (sequence s + Z.of_nat (length batch)) (time s),
           mkResponse 201 (Some (message_of <$> rows)))
      end
  end.

(** Time passes between requests. *)
Definition tick (s : Store) : Store :=
  mkStore (conversation_rows s) (message_rows s) (issued s) (sequence s) (time s + 1).

(** Modelled from the spec: the REST surface of the missing backend, one
    endpoint per request of the client; the relay is not served here. *)
Definition serve (A : Type) (r : Request A) (s : Store) : Store * Response A :=
  match r in Request A return Store * Response A with
  | GET_conversations => list_conversations (tick s)
  | POST_conversations body => create_conversation body (tick s)
  | GET_conversation id => get_conversation id (tick s)
  | DELETE_conversation id => delete_conversation id (tick s)
  | POST_messages id body => add_messages id body (tick s)
  | PATCH_conversation id body => update_conversation id body (tick s)
  | POST_chat _ => (s, mkResponse 404 None)
  end.

End Backend.

(** ** The whole deployment as a platform

    The browser reaches the backend (when it is up) and the relay route,
    which calls the hosted model [dep_provider]. The decoder is the identity,
    which is what UTF-8 decoding does when chunks end at character
    boundaries. *)
Record Deployment := mkDeployment {
  dep_store : Backend.Store;
  dep_backend_up : bool;
  dep_provider : StreamTextOptions -> Outcome TextStream;
  dep_clock : Z
}.

(** The relay response as the browser sees it. The body of an error response
    is not a text stream; the client does not read it. *)
Definition relay_response (r : option RouteResponse) : FetchResult TextStream :=
  match r with
  | None => Responds (mkResponse 500 None)
  | Some resp =>
      Responds (mkResponse (r_status resp)
                  (match r_body resp with
                   | TextStreamBody s => Some s
                   | JsonBody _ => None
                   end))
  end.

Definition deployment_serve (A : Type) (r : Request A) (w : Deployment)
  : Deployment * FetchResult A :=
  match r in Request A return Deployment * FetchResult A with
  | POST_chat body =>
      (w, relay_response (ChatRoute.handle (dep_provider w) (Returns body)).2)
  | r' =>
      if dep_backend_up w then
        let (s, resp) := Backend.serve _ r' (dep_store w) in
        (mkDeployment s (dep_backend_up w) (dep_provider w) (dep_clock w), Responds resp)
      else (w, FetchRejects (JsError "Failed to fetch"))
  end.

Definition deployment : Platform :=
  {| World := Deployment;
     serve := deployment_serve;
     Date_now := λ w,
       (mkDeployment (dep_store w) (dep_backend_up w) (dep_provider w) (dep_clock w + 7),
        dep_clock w);
     Decoder := unit;
     new_TextDecoder := ();
     decode := λ _ value, ((), value) |}.

(** ** A scenario: a healthy deployment

    The hosted model streams [values] and the stream then ends as [fin]; the
    store is empty and the page has just been loaded. *)
Definition demo_provider (values : list string) (fin : StreamEnd)
  : StreamTextOptions -> Outcome TextStream :=
  λ _, Returns (mkTextStream values fin).

Definition demo_page (backend_up : bool) (values : list string) (fin : StreamEnd)
  : Page deployment :=
  @start_Page deployment
    (mkHomeState [] None true false backend_up [] false None)
    (mkDeployment Backend.empty backend_up (demo_provider values fin) 1000).

(** A store with one conversation holding one exchange. *)
Definition demo_store : Backend.Store :=
  let s1 := (Backend.serve _ (POST_conversations (JObj [("title", JStr "Greetings")]))
               Backend.empty).1 in
  (Backend.serve _ (POST_messages "conv-1" (pair_body "Hello" "Hi there")) s1).1.

(** ** Vocabulary for statements about answers *)

(** What an API function of lib/api.ts returns for an answer: the parsed
    body of a 2xx response; [None] when the function throws (the fetch
    rejects, the response is not ok, or its body cannot be parsed). *)
Definition loaded {A} (res : FetchResult A) : option A :=
  match res with
  | FetchRejects _ => None
  | Responds response => if ok response then payload response else None
  end.

(** Whether [deleteConversation] returns for an answer: it does not read the
    body. *)
Definition accepted {A} (res : FetchResult A) : bool :=
  match res with
  | FetchRejects _ => false
  | Responds response => ok response
  end.

(** The message that [submitMessage] stores for a thrown value:
    [err instanceof Error ? err : new Error('An error occurred')]. *)
Definition error_message (err : Thrown) : string :=
  match err with
  | JsError message => message
  | NotAnError => "An error occurred"
  end.

(** ** components/ConversationSidebar.tsx *)

Module ConversationSidebar.

(** [1000 * 60 * 60 * 24] *)
Definition day : Z := 1000 * 60 * 60 * 24.

(** [formatDate]. [date] is [new Date(dateString).getTime()], with [None]
    for the [NaN] of a string that is not a date; [now] is
    [new Date().getTime()]; [toLocaleDateString] is the platform's. Times are
    whole milliseconds, on which the subtraction is exact and
    [Math.floor] of the quotient is the floor of the division. Every
    comparison with [NaN] is false. *)
Definition formatDate (toLocaleDateString : option Z -> string)
    (date : option Z) (now : Z) : string :=
  match date with
  | None => toLocaleDateString None
  | Some t =>
      let diffDays := (now - t) `div` day in
      if diffDays =? 0 then "Today"
      else if diffDays =? 1 then "Yesterday"
      else if diffDays <? 7 then pretty diffDays +:+ " days ago"
      else toLocaleDateString (Some t)
  end.

(** [conv.title || 'New Conversation'] *)
Definition shown_title (conv : Conversation) : string :=
  match conv_title conv with
  | Some t => if truthy t then t else "New Conversation"
  | None => "New Conversation"
  end.

(** The props that are callbacks. *)
Inductive Callback :=
| onSelectConversation (id : string)
| onNewConversation
| onDeleteConversation (id : string)
| onClose.

(** What can be clicked: the overlay behind the open sidebar, the close
    button, the New Chat button, the row of a conversation, and the delete
    button inside a row. *)
Inductive Target :=
| Overlay
| CloseButton
| NewChatButton
| Row (conv : Conversation)
| DeleteButton (conv : Conversation).

(** An [onClick] handler: the callbacks it calls, in order, and whether it
    calls [e.stopPropagation()]. *)
Definition Handler : Type := list Callback * bool.

Definition row_onClick (conv : Conversation) : Handler :=
  ([onSelectConversation (conv_id conv); onClose], false).

Definition delete_onClick (conv : Conversation) : Handler :=
  ([onDeleteConversation (conv_id conv)], true).

(** A click runs the handler of the target, then those of its ancestors,
    innermost first, until one has stopped the propagation. *)
Fixpoint bubble (handlers : list Handler) : list Callback :=
  match handlers with
  | [] => []
  | (calls, stopped) :: outer => calls ++ (if stopped then [] else bubble outer)
  end.

(** The callbacks of one click. The overlay exists only while [isOpen]. *)
Definition click (isOpen : bool) (target : Target) : list Callback :=
  match target with
  | Overlay => if isOpen then bubble [([onClose], false)] else []
  | CloseButton => bubble [([onClose], false)]
  | NewChatButton => bubble [([onNewConversation; onClose], false)]
  | Row conv => bubble [row_onClick conv]
  | DeleteButton conv => bubble [delete_onClick conv; row_onClick conv]
  end.

End ConversationSidebar.

(** ** components/ChatContainer.tsx and components/ChatMessage.tsx *)

Module ChatContainer.

(** What [ChatMessage] shows as the text of a bubble: the content of a user
    message as it is, and [content || '...'] for the assistant. *)
Definition shown_text (role : Role) (content : string) : string :=
  match role with
  | user => content
  | assistant => if truthy content then content else "..."
  end.

(** One [<ChatMessage>] of the list: its key [message.id || index] and its
    props. *)
Record Bubble := mkBubble {
  key : string + nat;
  role : Role;
  content : string;
  isStreaming : bool
}.

(** The typing indicator of a bubble: [!isUser && isStreaming]. *)
Definition typing (b : Bubble) : bool :=
  match role b with
  | user => false
  | assistant => isStreaming b
  end.

(** The body of [messages.map((message, index) => ...)] for a list of
    [length] messages. *)
Definition bubble (isLoading : bool) (length : nat) (index : nat) (message : ChatMessage)
  : Bubble :=
  {| key := if truthy (cm_id message) then inl (cm_id message) else inr index;
     role := cm_role message;
     content := cm_content message;
     isStreaming :=
       isLoading && (Z.of_nat index =? Z.of_nat length - 1)
       && bool_decide (cm_role message = assistant) |}.

Definition bubbles (isLoading : bool) (messages : list ChatMessage) : list Bubble :=
  imap (bubble isLoading (length messages)) messages.

(** [messages.length > 0] *)
Definition hasMessages (messages : list ChatMessage) : bool :=
  (0 <? length messages)%nat.

(** The messages area: the bubbles, or the welcome screen when there is no
    message. *)
Definition messages_area (isLoading : bool) (messages : list ChatMessage)
  : option (list Bubble) :=
  if hasMessages messages then Some (bubbles isLoading messages) else None.

End ChatContainer.

(** ** app/page.tsx: the sidebar wired to the handlers of [Home] *)

Section HomeWiring.
Context {P : Platform}.

Definition setSidebarOpen (v : bool) : M (Page P) unit :=
  modify (with_home (λ h,
    mkHomeState (conversations h) (currentConversationId h) v (isLoadingConversations h)
      (backendAvailable h) (messages h) (isChatLoading h) (error h))).

(** The props that [Home] passes to [ConversationSidebar]. *)
Definition call (c : ConversationSidebar.Callback) : M (Page P) unit :=
  match c with
  | ConversationSidebar.onSelectConversation id => handleSelectConversation id
  | ConversationSidebar.onNewConversation => handleNewConversation
  | ConversationSidebar.onDeleteConversation id => handleDeleteConversation id
  | ConversationSidebar.onClose => setSidebarOpen false
  end.

Fixpoint call_all (cs : list ConversationSidebar.Callback) : M (Page P) unit :=
  match cs with
  | [] => mret ()
  | c :: rest => call c;; call_all rest
  end.

(** A click in the sidebar of the page. The handlers are not awaited by the
    component; they touch state variables that the callbacks after them do
    not read, so running them one after the other gives the same state. *)
Definition sidebar_click (target : ConversationSidebar.Target) : M (Page P) unit :=
  view ← gets home;
  call_all (ConversationSidebar.click (sidebarOpen view) target).

(** The world when the append-messages call of a submission is made: after
    the relay has answered and the clock has been read for the assistant
    id. *)
Definition world_at_save (message : string) (p : Page P) : World P :=
  match opening message p with
  | (q, Returns (_, _, updatedMessages)) =>
      (Date_now P (serve P _ (POST_chat (chat_body updatedMessages)) (world q)).1).1
  | (q, Throws _) => world q
  end.

(** The requests that the first step of [submitMessage] makes, "create a new
    conversation if needed": the creation, followed by the reload of the list
    when it returns. [w] is the world in which the creation is served. *)
Definition creation_requests (view : HomeState) (w : World P) : list AnyRequest :=
  let create := POST_conversations (JObj [("title", JNull)]) in
  if negb (truthy_opt (currentConversationId view)) && backendAvailable view then
    any create ::
    match loaded (serve P _ create w).2 with
    | Some _ => [any GET_conversations]
    | None => []
    end
  else [].

(** The requests that the last step of [submitMessage] makes, "save to
    backend", under [if (convId && backendAvailable)]: the append-messages
    call, followed by the reload of the list when it returns. [w] is the
    world in which the call is served. *)
Definition saving_requests (view : HomeState) (convId : option string)
    (message content : string) (w : World P) : list AnyRequest :=
  match convId with
  | Some id =>
      if truthy id && backendAvailable view then
        let save := POST_messages id (pair_body message content) in
        any save ::
        match loaded (serve P _ save w).2 with
        | Some _ => [any GET_conversations]
        | None => []
        end
      else []
  | None => []
  end.

End HomeWiring.

(** What [addMessages] throws for an answer it cannot return. *)
Definition addMessages_thrown (answer : FetchResult (list Message)) : Thrown :=
  match answer with
  | FetchRejects e => e
  | Responds r =>
      if ok r then JsError "SyntaxError: Unexpected token in JSON"
      else JsError "Failed to add messages"
  end.

(** The message of the 500 answer that the [catch] block of the route gives
    for a thrown value. *)
Definition route_error_message (e : Thrown) : string :=
  match e with
  | JsError message =>
      if includes "API key" message
      then "API key configuration error. Please check your GEMINI_API_KEY."
      else "An error occurred while processing your request."
  | NotAnError => "An error occurred while processing your request."
  end.

(** ** Async functions and the event loop

    An async function runs without interruption until it waits for the
    network; there it is suspended, and the browser may run other handlers
    before it is resumed. *)

(** The places where the handlers of [Home] wait for the network. An API
    function of lib/api.ts sends its request when it is called and touches
    nothing of the page afterwards, so that awaiting it is one wait. *)
Inductive Await :=
| await_getConversations
| await_createConversation
| await_addMessages
| await_fetch_chat
| await_reader_read.

(** What a run of the event loop leaves behind: nothing, a call suspended at
    a wait together with what it does when it is resumed, or two of those. *)
#[warnings="-register-all"]
Inductive Task (S : Type) : Type :=
| Done
| Waiting (site : Await) (resume : S -> S * Task S)
| Both (first second : Task S).
Arguments Done {S}.
Arguments Waiting {S} site resume.
Arguments Both {S} first second.

(** One uninterrupted run. *)
Definition Run (S : Type) : Type := S -> S * Task S.

(** An async function, by what it does given what is done with its outcome. *)
Definition Job (S A : Type) : Type := (Outcome A -> Run S) -> Run S.

Global Instance Job_ret {S} : MRet (Job S) := λ A a k, k (Returns a).
Global Instance Job_bind {S} : MBind (Job S) := λ A B f m k,
  m (λ out, match out with
            | Returns a => f a k
            | Throws e => k (Throws e)
            end).

(** Code that does not wait. *)
Definition sync {S A} (c : M S A) : Job S A :=
  λ k s, let (s', out) := c s in k out s'.

(** [await] of a call that goes to the network: the call is made, which
    fixes what the world answers, and the function is suspended until it is
    resumed with that outcome. *)
Definition io {S A} (site : Await) (c : M S A) : Job S A :=
  λ k s, let (s', out) := c s in (s', Waiting site (k out)).

(** The end of a handler: its promise is not looked at. *)
Definition finished {S A} : Outcome A -> Run S := λ _ s, (s, Done).

(** A call of an async function that is not awaited: it runs up to its first
    wait, and the caller goes on. *)
Definition unawaited {S} (j : Job S unit) : Job S unit :=
  λ k s, let (s1, child) := j finished s in
         let (s2, rest) := k (Returns ()) s1 in
         (s2, Both child rest).

(** [try { body } catch (err) { handler err }] *)
Definition async_try_catch {S A} (body : Job S A) (handler : Thrown -> Job S A) : Job S A :=
  λ k, body (λ out, match out with
                    | Returns a => k (Returns a)
                    | Throws e => handler e k
                    end).

(** [try { body } finally { cleanup }] *)
Definition async_try_finally {S A} (body : Job S A) (cleanup : Job S unit) : Job S A :=
  λ k, body (λ out, cleanup (λ out', match out' with
                                     | Returns _ => k out
                                     | Throws e => k (Throws e)
                                     end)).

(** The suspended calls of a task, in order. *)
Fixpoint suspensions {S} (t : Task S) : list (Await * Run S) :=
  match t with
  | Done => []
  | Waiting site resume => [(site, resume)]
  | Both first second => suspensions first ++ suspensions second
  end.

(** A task resumed again and again with nothing else in between. *)
Fixpoint drive {S} (t : Task S) (s : S) : S :=
  match t with
  | Done => s
  | Waiting _ resume => let (s', t') := resume s in drive t' s'
  | Both first second => drive second (drive first s)
  end.

(** A handler called and left alone until it is over. *)
Definition alone {S} (j : Job S unit) (s : S) : S :=
  let (s', t) := j finished s in drive t s'.

(** ** components/WelcomeScreen.tsx *)

Module WelcomeScreen.

Record Example := mkExample {
  title : string;
  question : string
}.

Definition exampleQuestions : list Example :=
  [ mkExample "Cloud Migration"
      "What are the best practices for migrating an on-premise application to Google Cloud?";
    mkExample "Cost Optimization"
      "How can I reduce my Google Cloud costs while maintaining performance?";
    mkExample "Security"
      "What security features does Google Cloud offer for enterprise applications?";
    mkExample "Google Workspace"
      "How do I set up Google Workspace for a new organization?" ].

(** The button of the example [index]:
    [onClick={() => onExampleClick(example.question)}]. The result is the
    argument of the [onExampleClick] call. *)
Definition onClick (index : nat) : option string :=
  question <$> exampleQuestions !! index.

End WelcomeScreen.

(** ** app/page.tsx: the handlers of [Home] with their waits *)

Module Async.
Section Handlers.
Context {P : Platform}.

Local Abbreviation Handler := (Job (Page P)).

Definition loadConversations : Handler unit :=
  async_try_finally
    (async_try_catch
       (convs ← io await_getConversations getConversations;
        sync (setConversations convs;; setBackendAvailable true))
       (λ err,
        sync (toast_error "Failed to load conversations from backend";;
              setBackendAvailable false)))
    (sync (setIsLoadingConversations false)).

Definition handleNewConversation : Handler unit :=
  view ← sync (gets home);
  sync (setMessages []);;
  sync (setCurrentConversationId None);;
  if backendAvailable view then
    async_try_catch
      (newConv ← io await_createConversation (createConversation None);
       sync (setCurrentConversationId (Some (conv_id newConv)));;
       loadConversations)
      (λ err, sync (toast_error "Failed to create new conversation"))
  else mret ().

(** "Create a new conversation if needed" *)
Definition ensure_conversation (view : HomeState) : Handler (option string) :=
  let convId := currentConversationId view in
  if negb (truthy_opt convId) && backendAvailable view then
    async_try_catch
      (newConv ← io await_createConversation (createConversation None);
       sync (setCurrentConversationId (Some (conv_id newConv)));;
       loadConversations;;
       mret (Some (conv_id newConv)))
      (λ err,
       sync (toast_error "Failed to create new conversation");;
       mret convId)
  else mret convId.

(** The [while (true)] loop: every turn waits at [await reader.read()]. *)
Fixpoint read_loop (assistantId : string) (decoder : Decoder P)
    (assistantContent : string) (values : list string) (fin : StreamEnd)
  : Handler string :=
  match values with
  | [] =>
      io await_reader_read
        (match fin with
         | StreamDone => mret assistantContent
         | StreamThrows e => throw e
         end)
  | value :: rest =>
      io await_reader_read (mret ());;
      let (decoder', chunk) := decode P decoder value in
      let assistantContent := assistantContent +:+ chunk in
      sync (updateMessages (set_assistant_content assistantId assistantContent));;
      read_loop assistantId decoder' assistantContent rest fin
  end.

(** "Save to backend" *)
Definition save_to_backend (view : HomeState) (convId : option string)
    (message assistantContent : string) : Handler unit :=
  match convId with
  | Some id =>
      if truthy id && backendAvailable view then
        io await_addMessages
          (addMessages id [(user, message); (assistant, assistantContent)]);;
        unawaited loadConversations
      else mret ()
  | None => mret ()
  end.

(** The [try] block of [submitMessage]. *)
Definition stream_and_save (view : HomeState) (convId : option string)
    (message : string) (updatedMessages : list ChatMessage) : Handler unit :=
  response ← io await_fetch_chat (fetch (POST_chat (chat_body updatedMessages)));
  if negb (ok response) then sync (throw_Error "Failed to get response") else
  match payload response with
  | None => sync (throw_Error "No response body")
  | Some body =>
      let decoder := new_TextDecoder P in
      now ← sync date_now;
      let assistantId := pretty (now + 1) in
      sync (updateMessages (λ prev, prev ++ [mkChatMessage assistantId assistant ""]));;
      assistantContent ← read_loop assistantId decoder "" (ts_chunks body) (ts_end body);
      save_to_backend view convId message assistantContent
  end.

(** The part of [submitMessage] before its [try] block. *)
Definition opening (message : string)
  : Handler (HomeState * option string * list ChatMessage) :=
  view ← sync (gets home);
  sync (setError None);;
  sync (setIsChatLoading true);;
  convId ← ensure_conversation view;
  updatedMessages ← sync (add_user_message view message);
  mret (view, convId, updatedMessages).

(** The [try] / [catch] / [finally] of [submitMessage]. *)
Definition attempt (view : HomeState) (convId : option string) (message : string)
    (updatedMessages : list ChatMessage) : Handler unit :=
  async_try_finally
    (async_try_catch
       (stream_and_save view convId message updatedMessages)
       (λ err,
        sync (setError (Some (match err with
                              | JsError message => message
                              | NotAnError => "An error occurred"
                              end));;
              updateMessages drop_empty)))
    (sync (setIsChatLoading false)).

Definition submitMessage (message : string) : Handler unit :=
  '(view, convId, updatedMessages) ← opening message;
  attempt view convId message updatedMessages.

End Handlers.
End Async.

(** ** The page in the browser

    What the user can do with the chat area and the New Chat button while
    calls of the handlers are suspended. *)

Module Browser.
Section Browser.
Context {P : Platform}.

Record State := mkState {
  page : Page P;
  (** the [input] of [ChatInput] *)
  input : string;
  (** the suspended calls, each with the wait it is at *)
  suspended : list (Await * Run (Page P))
}.

Inductive Event :=
(** an event of the form of [ChatInput] *)
| Form (e : ChatInput.Event)
(** a click on an example of the welcome screen *)
| ExampleClick (index : nat)
(** a click on the New Chat button of the open sidebar *)
| NewChatClick
(** what the suspended call number [i] waits for has arrived *)
| Arrived (i : nat).

(** The [onSubmit] call of an event of the chat area, as [Home] and
    [ChatContainer] pass the props: [isLoading={isChatLoading}] for the
    input; the welcome screen, with [onExampleClick={onSubmit}], is there
    only when [messages] is empty. *)
Definition onSubmit_call (b : State) (ev : Event) : option string :=
  match ev with
  | Form e => (ChatInput.handle (isChatLoading (home (page b))) e (input b)).2
  | ExampleClick index =>
      if ChatContainer.hasMessages (messages (home (page b))) then None
      else WelcomeScreen.onClick index
  | _ => None
  end.

(** A handler is called: it runs up to its first wait. *)
Definition call (j : Job (Page P) unit) (input' : string) (b : State) : State :=
  let (p', t) := j finished (page b) in
  mkState p' input' (suspended b ++ suspensions t).

(** The New Chat button of the sidebar:
    [onClick={() => { onNewConversation(); onClose(); }}], with the props
    that [Home] passes. *)
Definition newChat_onClick : Job (Page P) unit :=
  unawaited Async.handleNewConversation;;
  sync (setSidebarOpen false).

Definition step (b : State) (ev : Event) : State :=
  match ev with
  | Form e =>
      let input' := (ChatInput.handle (isChatLoading (home (page b))) e (input b)).1 in
      match onSubmit_call b ev with
      | Some message => call (Async.submitMessage message) input' b
      | None => mkState (page b) input' (suspended b)
      end
  | ExampleClick index =>
      match onSubmit_call b ev with
      | Some question => call (Async.submitMessage question) (input b) b
      | None => b
      end
  | NewChatClick =>
      (* the sidebar is off the screen when it is not open *)
      if sidebarOpen (home (page b)) then call newChat_onClick (input b) b else b
  | Arrived i =>
      match suspended b !! i with
      | Some (_, resume) =>
          let (p', t) := (resume (page b) : Page P * Task (Page P)) in
          mkState p' (input b)
            (take i (suspended b) ++ suspensions t ++ drop (S i) (suspended b))
      | None => b
      end
  end.

Definition run (b : State) (events : list Event) : State := foldl step b events.

(** The waits of the suspended calls. *)
Definition waits (b : State) : list Await := fst <$> suspended b.

End Browser.
End Browser.

(** ** Vocabulary for statements about handlers that wait *)

Section Agreement.
Context {S : Type}.

(** Where an uninterrupted run ends when what it leaves is left alone. *)
Definition settle (r : S * Task S) : S := drive r.2 r.1.

(** [j] does what [c] does, when nothing else runs in between. *)
Definition agrees {A} (j : Job S A) (c : M S A) : Prop :=
  forall (k : Outcome A -> Run S) (s : S),
    settle (j k s) = settle (k (c s).2 (c s).1).

(** The same, before the continuation [k] only. *)
Definition agrees_before {A} (k : Outcome A -> Run S) (j : Job S A) (c : M S A) : Prop :=
  forall s, settle (j k s) = settle (k (c s).2 (c s).1).

End Agreement.

(** A continuation that only resets the loading flag, as the [finally] of
    [submitMessage] does once the [try] block has returned. *)
Definition closing {P : Platform} (k : Outcome unit -> Run (Page P)) : Prop :=
  forall p, k (Returns ()) p = ((setIsChatLoading false p).1, Done).

(** * Properties *)

(** ** Strings *)

Lemma truthy_spec s : truthy s = true <-> s <> "".
Proof.
  unfold truthy. destruct (String.eqb_spec s ""); simpl; split; congruence.
Qed.

(** ** One submission, step by step *)

Section ClientFacts.
Context {P : Platform}.
Implicit Types (p q : Page P) (message : string).

Local Ltac run_step :=
  unfold mbind, M_bind, mret, M_ret, try_catch, try_finally, throw_Error, throw,
    modify, gets, with_home; cbn [home world requests toasts transcripts fst snd].

Lemma fetch_run {A} (r : Request A) p :
  fetch r p =
    (mkPage (home p) (serve P A r (world p)).1 (requests p ++ [any r]) (toasts p) (transcripts p),
     match (serve P A r (world p)).2 with
     | FetchRejects e => Throws e
     | Responds resp => Returns resp
     end).
Proof.
  unfold fetch. destruct (serve P A r (world p)) as [w [e|resp]]; reflexivity.
Qed.

Lemma loadConversations_run p :
  exists h w ts,
    loadConversations p =
      (mkPage h w (requests p ++ [any GET_conversations]) ts (transcripts p), Returns ())
    /\ chat_fields h = chat_fields (home p).
Proof.
  unfold loadConversations, getConversations, response_json.
  run_step. rewrite fetch_run.
  destruct (serve P _ GET_conversations (world p)) as [w [e|resp]]; cbn.
  - unfold toast_error, setBackendAvailable, setIsLoadingConversations. run_step.
    eauto 10.
  - destruct (ok resp); cbn.
    + destruct (payload resp); cbn; eauto 10.
    + eauto 10.
Qed.

Lemma ensure_conversation_run view p :
  exists h w ts new convId,
    ensure_conversation view p =
      (mkPage h w (requests p ++ new) ts (transcripts p), Returns convId)
    /\ chat_fields h = chat_fields (home p)
    /\ Forall quiet new
    /\ (negb (truthy_opt (currentConversationId view)) && backendAvailable view = false ->
        new = [] /\ convId = currentConversationId view).
Proof.
  unfold ensure_conversation.
  destruct (negb (truthy_opt (currentConversationId view)) && backendAvailable view) eqn:G.
  - unfold createConversation, response_json. run_step. rewrite fetch_run.
    set (r := POST_conversations _).
    destruct (serve P _ r (world p)) as [w [e|resp]]; cbn.
    + unfold toast_error. run_step.
      exists (home p), w, (toasts p ++ ["Failed to create new conversation"]), [any r],
        (currentConversationId view).
      repeat split; try done. repeat constructor.
    + destruct (ok resp); cbn.
      * destruct (payload resp) as [c|]; cbn.
        -- unfold setCurrentConversationId. run_step.
           match goal with |- context [loadConversations ?x] =>
             destruct (loadConversations_run x) as (h & w' & ts & E & Hm) end.
           rewrite E. cbn in *.
           exists h, w', ts, [any r; any GET_conversations], (Some (conv_id c)).
           rewrite <- app_assoc. repeat split; try done. repeat constructor.
        -- unfold toast_error. run_step.
           exists (home p), w, (toasts p ++ ["Failed to create new conversation"]), [any r],
             (currentConversationId view).
           repeat split; try done. repeat constructor.
      * unfold toast_error. run_step.
        exists (home p), w, (toasts p ++ ["Failed to create new conversation"]), [any r],
          (currentConversationId view).
        repeat split; try done. repeat constructor.
  - run_step. exists (home p), (world p), (toasts p), [], (currentConversationId view).
    rewrite app_nil_r. destruct p; repeat split; done.
Qed.

Lemma date_now_run p :
  date_now p = (mkPage (home p) (Date_now P (world p)).1 (requests p) (toasts p) (transcripts p),
                Returns (Date_now P (world p)).2).
Proof. unfold date_now. destruct (Date_now P (world p)); reflexivity. Qed.

Lemma opening_run message p :
  exists h w ts new convId uid,
    let upd := messages (home p) ++ [mkChatMessage uid user message] in
    opening message p =
      (mkPage h w (requests p ++ new) ts (transcripts p ++ [upd]), Returns (home p, convId, upd))
    /\ messages h = upd
    /\ error h = None
    /\ Forall quiet new
    /\ (negb (truthy_opt (currentConversationId (home p))) && backendAvailable (home p) = false ->
        new = [] /\ convId = currentConversationId (home p)).
Proof.
  unfold opening, setError, setIsChatLoading. run_step.
  match goal with |- context [ensure_conversation ?v ?x] =>
    destruct (ensure_conversation_run v x)
      as (h & w & ts & new & convId & E & Hm & Hq & Hoff) end.
  rewrite E. cbn in *.
  unfold add_user_message, setMessages, updateMessages. run_step. rewrite date_now_run. cbn.
  eexists _, _, _, new, convId, _. cbn. split; [reflexivity|]. cbn.
  inversion Hm; subst. repeat split; try done; by destruct Hoff.
Qed.

Lemma append_nil_r (s : string) : s +:+ "" = s.
Proof.
  induction s as [|c s IH]; [reflexivity|].
  change (String c (s +:+ "") = String c s). by rewrite IH.
Qed.

Lemma append_assoc (a b c : string) : (a +:+ b) +:+ c = a +:+ (b +:+ c).
Proof.
  induction a as [|x a IH]; [reflexivity|].
  change (String x ((a +:+ b) +:+ c) = String x (a +:+ (b +:+ c))). by rewrite IH.
Qed.

Lemma set_assistant_content_twice aid a b (l : list ChatMessage) :
  set_assistant_content aid b (set_assistant_content aid a l) = set_assistant_content aid b l.
Proof.
  unfold set_assistant_content. rewrite <- list_fmap_compose.
  apply list_fmap_ext. intros _ m _. cbn.
  destruct (String.eqb (cm_id m) aid) eqn:E; cbn; rewrite E; reflexivity.
Qed.

Lemma streamed_into_cons aid base a (rest : list string) :
  streamed_into aid base (a :: rest) = streamed_into aid (set_assistant_content aid a base) rest.
Proof.
  unfold streamed_into. destruct rest as [|b rest]; [reflexivity|].
  change (last (a :: b :: rest)) with (last (b :: rest)).
  destruct (last (b :: rest)) eqn:E.
  - by rewrite set_assistant_content_twice.
  - by apply last_None in E.
Qed.

Lemma read_loop_run aid fin values : forall (d : Decoder P) acc p,
  let contents := running acc (decode_all d values) in
  exists h,
    read_loop aid d acc values fin p =
      (mkPage h (world p) (requests p) (toasts p)
         (transcripts p ++ ((λ a, set_assistant_content aid a (messages (home p))) <$> contents)),
       match fin with
       | StreamDone => Returns (acc +:+ concat_text (decode_all d values))
       | StreamThrows e => Throws e
       end)
    /\ messages h = streamed_into aid (messages (home p)) contents
    /\ error h = error (home p).
Proof.
  induction values as [|value rest IH]; intros d acc p; cbn.
  - exists (home p). rewrite app_nil_r. destruct p as [h w r t ts]; cbn.
    unfold concat_text; cbn. rewrite append_nil_r.
    destruct fin; repeat split; reflexivity.
  - destruct (decode P d value) as [d' chunk] eqn:D. cbn.
    unfold updateMessages. run_step.
    match goal with |- context [read_loop aid d' ?a rest fin ?x] =>
      destruct (IH d' a x) as (h & E & Hm & He) end.
    cbn in *. exists h. rewrite E. split; [|split].
    + f_equal.
      * f_equal. rewrite <- app_assoc. f_equal. cbn. f_equal.
        apply list_fmap_ext. intros. cbn. apply set_assistant_content_twice.
      * destruct fin; [|reflexivity]. f_equal. unfold concat_text. cbn.
        by rewrite append_assoc.
    + rewrite Hm. by rewrite streamed_into_cons.
    + done.
Qed.

Local Ltac finish One :=
  split; [reflexivity|]; split; [done|];
  split; [intros G'; cbn in G'; congruence | exact One].

Lemma save_to_backend_run view convId message content p :
  exists h w ts saved out,
    save_to_backend view convId message content p =
      (mkPage h w (requests p ++ saved) ts (transcripts p), out)
    /\ chat_fields h = chat_fields (home p)
    /\ (truthy_opt convId && backendAvailable view = false -> saved = [] /\ out = Returns ())
    /\ (forall id, convId = Some id -> truthy id && backendAvailable view = true ->
        exists follow,
          saved = any (POST_messages id (pair_body message content)) :: follow
          /\ Forall quiet follow).
Proof.
  unfold save_to_backend. destruct convId as [id|]; cbn.
  2:{ run_step. exists (home p), (world p), (toasts p), [], (Returns ()).
      rewrite app_nil_r. destruct p; repeat split; done. }
  destruct (truthy id && backendAvailable view) eqn:G.
  2:{ run_step. exists (home p), (world p), (toasts p), [], (Returns ()).
      rewrite app_nil_r. destruct p; repeat split; try done.
      intros ? [= <-]. congruence. }
  unfold addMessages, response_json. run_step. rewrite fetch_run.
  set (r := POST_messages _ _).
  assert (forall id', Some id = Some id' -> truthy id' && backendAvailable view = true ->
    exists follow, [any r] = any (POST_messages id' (pair_body message content)) :: follow
                   /\ Forall quiet follow) as One.
  { intros ? [= <-] _. exists []. split; [reflexivity | constructor]. }
  destruct (serve P _ r (world p)) as [w [e|resp]]; cbn.
  { eexists (home p), w, (toasts p), [any r], _. finish One. }
  destruct (ok resp); cbn.
  2:{ eexists (home p), w, (toasts p), [any r], _. finish One. }
  destruct (payload resp); cbn.
  2:{ eexists (home p), w, (toasts p), [any r], _. finish One. }
  match goal with |- context [loadConversations ?x] =>
    destruct (loadConversations_run x) as (h & w' & ts & E & Hm) end.
  rewrite E. cbn in *. rewrite <- app_assoc.
  eexists h, w', ts, [any r; any GET_conversations], _.
  split; [reflexivity|]. split; [done|].
  split; [intros G'; cbn in G'; congruence|].
  intros ? [= <-] _. exists [any GET_conversations]. split; [reflexivity|].
  repeat constructor.
Qed.

Lemma submitMessage_attempt message p q view convId upd :
  opening message p = (q, Returns (view, convId, upd)) ->
  submitMessage message p = attempt view convId message upd q.
Proof. intros E. unfold submitMessage. run_step. by rewrite E. Qed.

Lemma attempt_run view convId message upd q :
  messages (home q) = upd ->
  error (home q) = None ->
  let chat := any (POST_chat (chat_body upd)) in
  let res := (serve P _ (POST_chat (chat_body upd)) (world q)).2 in
  let p' := (attempt view convId message upd q).1 in
  (attempt view convId message upd q).2 = Returns () /\
  match classify res with
  | FailedBeforeStream e =>
      requests p' = requests q ++ [chat]
      /\ messages (home p') = drop_empty upd
      /\ transcripts p' = transcripts q ++ [drop_empty upd]
  | FailedMidStream values e =>
      exists aid,
        let base := upd ++ [mkChatMessage aid assistant ""] in
        let contents := running "" (decode_all (new_TextDecoder P) values) in
        requests p' = requests q ++ [chat]
        /\ messages (home p') = drop_empty (streamed_into aid base contents)
        /\ transcripts p' =
             transcripts q ++ [base] ++ ((λ a, set_assistant_content aid a base) <$> contents)
               ++ [drop_empty (streamed_into aid base contents)]
  | Completed values =>
      exists aid saved tail,
        let base := upd ++ [mkChatMessage aid assistant ""] in
        let decoded := decode_all (new_TextDecoder P) values in
        let contents := running "" decoded in
        requests p' = requests q ++ [chat] ++ saved
        /\ transcripts p' =
             transcripts q ++ [base] ++ ((λ a, set_assistant_content aid a base) <$> contents)
               ++ tail
        /\ (truthy_opt convId && backendAvailable view = false ->
            saved = [] /\ tail = []
            /\ messages (home p') = streamed_into aid base contents)
        /\ (forall id, convId = Some id -> truthy id && backendAvailable view = true ->
            exists follow,
              saved = any (POST_messages id (pair_body message (concat_text decoded))) :: follow
              /\ Forall quiet follow)
        /\ (error (home p') = None ->
            tail = [] /\ messages (home p') = streamed_into aid base contents)
  end.
Proof.
  intros Hm He. unfold attempt, stream_and_save.
  cbn zeta. run_step. rewrite fetch_run.
  destruct (serve P _ (POST_chat (chat_body upd)) (world q)) as [w [e|resp]]; cbn.
  { unfold setError, updateMessages, setIsChatLoading. run_step. rewrite Hm. done. }
  destruct (ok resp); cbn.
  2:{ unfold setError, updateMessages, setIsChatLoading. run_step. rewrite Hm. done. }
  destruct (payload resp) as [body|]; cbn.
  2:{ unfold setError, updateMessages, setIsChatLoading. run_step. rewrite Hm. done. }
  rewrite date_now_run. cbn. unfold updateMessages at 2. run_step.
  set (aid := pretty (_ + 1)).
  match goal with |- context [read_loop aid ?d "" ?vs ?fin ?x] =>
    destruct (read_loop_run aid fin vs d "" x) as (h & E & Hh & Hee) end.
  rewrite E. cbn in *. rewrite Hm in *.
  destruct (ts_end body) as [|e]; cbn.
  - match goal with |- context [save_to_backend view convId message ?c ?x] =>
      destruct (save_to_backend_run view convId message c x)
        as (h2 & w2 & ts2 & saved & out & E2 & Hc & Hoff & Hon) end.
    rewrite E2. cbn in *. inversion Hc as [[Hm2 Hl2 He2]]. 
    destruct out as [e|[]].
    + unfold setError, updateMessages, setIsChatLoading. run_step. split; [done|].
      exists aid, saved, [drop_empty (messages h2)]. cbn.
      rewrite <- !app_assoc. cbn. repeat split; try done; by destruct Hoff.
    + unfold setIsChatLoading. run_step. split; [done|].
      exists aid, saved, []. cbn. rewrite <- !app_assoc, app_nil_r. cbn.
      repeat split; try done; try congruence; by destruct Hoff.
  - unfold setError, updateMessages, setIsChatLoading. run_step. split; [done|].
    exists aid. cbn. rewrite <- !app_assoc. cbn. rewrite Hh. done.
Qed.

End ClientFacts.

(** ** Streams and transcripts *)

Lemma running_length acc chunks : length (running acc chunks) = length chunks.
Proof. revert acc. induction chunks as [|c rest IH]; intros acc; cbn; [done|]. by rewrite IH. Qed.

Lemma running_lookup chunks : forall acc k,
  (k < length chunks)%nat ->
  running acc chunks !! k = Some (acc +:+ concat_text (take (S k) chunks)).
Proof.
  induction chunks as [|c rest IH]; intros acc k Hk; cbn in Hk; [lia|].
  destruct k as [|k]; cbn.
  - unfold concat_text. cbn. by rewrite take_0, append_nil_r.
  - rewrite IH by lia. unfold concat_text. cbn. by rewrite append_assoc.
Qed.

Lemma running_last chunks : forall acc,
  chunks <> [] -> last (running acc chunks) = Some (acc +:+ concat_text chunks).
Proof.
  induction chunks as [|c rest IH]; intros acc Hne; [done|].
  destruct rest as [|c2 rest].
  - unfold concat_text. cbn. by rewrite append_nil_r.
  - change (last (running acc (c :: c2 :: rest)))
      with (last (running (acc +:+ c) (c2 :: rest))).
    rewrite IH by done. unfold concat_text. cbn. by rewrite append_assoc.
Qed.

Lemma set_assistant_content_snoc aid a r c0 (prev : list ChatMessage) :
  set_assistant_content aid a (prev ++ [mkChatMessage aid r c0]) =
  set_assistant_content aid a prev ++ [mkChatMessage aid r a].
Proof.
  unfold set_assistant_content. rewrite fmap_app. cbn. by rewrite String.eqb_refl.
Qed.

Lemma streamed_into_last aid (upd : list ChatMessage) chunks :
  exists shown,
    streamed_into aid (upd ++ [mkChatMessage aid assistant ""]) (running "" chunks) =
    shown ++ [mkChatMessage aid assistant (concat_text chunks)]
    /\ length shown = length upd.
Proof.
  unfold streamed_into. destruct chunks as [|c rest].
  - exists upd. done.
  - rewrite running_last by done. rewrite set_assistant_content_snoc.
    eexists. split; [reflexivity|]. unfold set_assistant_content. by rewrite length_fmap.
Qed.

Lemma drop_empty_nonempty (l : list ChatMessage) :
  Forall (λ m, cm_content m <> "") (drop_empty l).
Proof.
  apply List.Forall_forall. intros m Hin. apply List.filter_In in Hin as [_ H].
  destruct (String.eqb_spec (cm_content m) ""); [done|done].
Qed.

Lemma drop_empty_snoc (l : list ChatMessage) m :
  cm_content m <> "" -> drop_empty (l ++ [m]) = drop_empty l ++ [m].
Proof.
  intros H. unfold drop_empty. rewrite List.filter_app. cbn.
  destruct (String.eqb_spec (cm_content m) ""); [done|done].
Qed.

Lemma filter_quiet_messages (l : list AnyRequest) :
  Forall quiet l -> List.filter is_POST_messages l = [].
Proof.
  induction 1 as [|r l [H _] _ IH]; cbn; [done|]. by rewrite H.
Qed.

Lemma filter_quiet_chat (l : list AnyRequest) :
  Forall quiet l -> List.filter is_POST_chat l = [].
Proof.
  induction 1 as [|r l [_ H] _ IH]; cbn; [done|]. by rewrite H.
Qed.

Section Submission.
Context {P : Platform}.
Implicit Types (p q : Page P) (message : string).

Lemma decode_all_length values : forall (d : Decoder P),
  length (decode_all d values) = length values.
Proof.
  induction values as [|v rest IH]; intros d; cbn; [done|].
  destruct (decode P d v). cbn. by rewrite IH.
Qed.

(** The whole of [submitMessage], by the outcome of the relay exchange. *)
Lemma submitMessage_run message p :
  exists q new convId uid,
    let upd := messages (home p) ++ [mkChatMessage uid user message] in
    let chat := any (POST_chat (chat_body upd)) in
    let p' := (submitMessage message p).1 in
    opening message p = (q, Returns (home p, convId, upd))
    /\ requests q = requests p ++ new
    /\ transcripts q = transcripts p ++ [upd]
    /\ Forall quiet new
    /\ (negb (truthy_opt (currentConversationId (home p))) && backendAvailable (home p) = false ->
        new = [] /\ convId = currentConversationId (home p))
    /\ (submitMessage message p).2 = Returns ()
    /\ match classify (relay_answer message p) with
       | FailedBeforeStream e =>
           requests p' = requests q ++ [chat]
           /\ messages (home p') = drop_empty upd
           /\ transcripts p' = transcripts q ++ [drop_empty upd]
       | FailedMidStream values e =>
           exists aid,
             let base := upd ++ [mkChatMessage aid assistant ""] in
             let contents := running "" (decode_all (new_TextDecoder P) values) in
             requests p' = requests q ++ [chat]
             /\ messages (home p') = drop_empty (streamed_into aid base contents)
             /\ transcripts p' =
                  transcripts q ++ [base] ++ ((λ a, set_assistant_content aid a base) <$> contents)
                    ++ [drop_empty (streamed_into aid base contents)]
       | Completed values =>
           exists aid saved tail,
             let base := upd ++ [mkChatMessage aid assistant ""] in
             let decoded := decode_all (new_TextDecoder P) values in
             let contents := running "" decoded in
             requests p' = requests q ++ [chat] ++ saved
             /\ transcripts p' =
                  transcripts q ++ [base] ++ ((λ a, set_assistant_content aid a base) <$> contents)
                    ++ tail
             /\ (truthy_opt convId && backendAvailable (home p) = false ->
                 saved = [] /\ tail = []
                 /\ messages (home p') = streamed_into aid base contents)
             /\ (forall id, convId = Some id -> truthy id && backendAvailable (home p) = true ->
                 exists follow,
                   saved = any (POST_messages id (pair_body message (concat_text decoded))) :: follow
                   /\ Forall quiet follow)
             /\ (error (home p') = None ->
                 tail = [] /\ messages (home p') = streamed_into aid base contents)
       end.
Proof.
  destruct (opening_run message p) as (h & w & ts & new & convId & uid & E & Hm & He & Hq & Hoff).
  cbn zeta in *.
  eexists _, new, convId, uid. cbn zeta.
  split; [exact E|]. split; [reflexivity|]. split; [reflexivity|].
  split; [exact Hq|]. split; [exact Hoff|].
  unfold relay_answer. rewrite (submitMessage_attempt _ _ _ _ _ _ E), E.
  match goal with |- context [attempt ?v ?c ?m ?u ?x] =>
    pose proof (attempt_run v c m u x Hm He) as R end.
  cbn zeta in R. exact R.
Qed.

(** C2. For a submission whose conversation id exists, with the backend
    available and a relay stream that completes normally, exactly one
    append-messages call is issued during the submission, and it carries
    exactly the pair: the user message, then the assistant message with the
    final accumulated text. *)
Theorem completed_stream_persists_pair_once message p id values :
  conversation_used message p = Some id ->
  truthy id = true ->
  backendAvailable (home p) = true ->
  classify (relay_answer message p) = Completed values ->
  let p' := (submitMessage message p).1 in
  List.filter is_POST_messages (requests p') =
    List.filter is_POST_messages (requests p) ++
    [any (POST_messages id
            (pair_body message (concat_text (decode_all (new_TextDecoder P) values))))].
Proof.
  intros Hc Ht Hb Hrelay p'.
  destruct (submitMessage_run message p)
    as (q & new & convId & uid & E & Hr & _ & Hq & _ & _ & R).
  cbn zeta in R. rewrite Hrelay in R.
  destruct R as (aid & saved & tail & Hreq & _ & _ & Hon & _).
  unfold conversation_used in Hc. rewrite E in Hc. subst convId.
  destruct (Hon id eq_refl) as (follow & -> & Hf); [by rewrite Ht, Hb|].
  subst p'. rewrite Hreq, Hr.
  rewrite !List.filter_app. cbn.
  by rewrite (filter_quiet_messages new), (filter_quiet_messages follow), app_nil_r.
Qed.

(** C6. A submission made while the backend is unavailable sends the relay
    request and nothing else: no request goes to the conversation API. When
    the stream completes, the transcript ends with the assistant entry
    holding the whole streamed text. *)
Theorem unavailable_backend_still_streams message p :
  backendAvailable (home p) = false ->
  let p' := (submitMessage message p).1 in
  exists uid,
    let upd := messages (home p) ++ [mkChatMessage uid user message] in
    requests p' = requests p ++ [any (POST_chat (chat_body upd))]
    /\ List.filter is_backend_request (requests p') =
       List.filter is_backend_request (requests p)
    /\ forall values,
         classify (relay_answer message p) = Completed values ->
         let decoded := decode_all (new_TextDecoder P) values in
         exists aid shown,
           messages (home p') =
             streamed_into aid (upd ++ [mkChatMessage aid assistant ""]) (running "" decoded)
           /\ messages (home p') = shown ++ [mkChatMessage aid assistant (concat_text decoded)].
Proof.
  intros Hb p'.
  destruct (submitMessage_run message p)
    as (q & new & convId & uid & E & Hr & _ & _ & Hoff & _ & R).
  destruct Hoff as [-> ->]; [by rewrite Hb, andb_false_r|].
  rewrite app_nil_r in Hr. cbn zeta in R.
  exists uid. cbn zeta.
  assert (requests p' = requests p ++
            [any (POST_chat (chat_body (messages (home p) ++ [mkChatMessage uid user message])))])
    as Hreq.
  { subst p'. destruct (classify (relay_answer message p)).
    - destruct R as (aid & saved & tail & Hreq & _ & Hno & _).
      destruct Hno as (-> & _); [by rewrite Hb, andb_false_r|].
      by rewrite Hreq, Hr.
    - destruct R as (Hreq & _). by rewrite Hreq, Hr.
    - destruct R as (aid & Hreq & _). by rewrite Hreq, Hr. }
  split; [exact Hreq|]. split.
  { rewrite Hreq, List.filter_app. cbn. by rewrite app_nil_r. }
  intros values Hrelay. rewrite Hrelay in R.
  destruct R as (aid & saved & tail & _ & _ & Hno & _).
  destruct Hno as (_ & _ & Hmsg); [by rewrite Hb, andb_false_r|].
  destruct (streamed_into_last aid
              (messages (home p) ++ [mkChatMessage uid user message])
              (decode_all (new_TextDecoder P) values))
    as (shown & Hshown & _).
  exists aid, shown. split; [exact Hmsg|]. subst p'. by rewrite Hmsg, Hshown.
Qed.

(** C4. When the relay stream completes, the transcripts rendered during the
    submission are: the one with the user message, the one with the empty
    assistant entry, and then one per chunk, in arrival order, in which the
    assistant entry holds the concatenation of the chunks decoded so far. If
    the submission ends without error the final transcript ends with the
    assistant entry holding the concatenation of all the chunks. *)
Theorem chunks_accumulate_in_order message p values :
  classify (relay_answer message p) = Completed values ->
  let p' := (submitMessage message p).1 in
  let decoded := decode_all (new_TextDecoder P) values in
  exists uid aid tail,
    let upd := messages (home p) ++ [mkChatMessage uid user message] in
    let base := upd ++ [mkChatMessage aid assistant ""] in
    let shown := (λ a, set_assistant_content aid a base) <$> running "" decoded in
    transcripts p' = transcripts p ++ [upd; base] ++ shown ++ tail
    /\ length shown = length values
    /\ (forall k, (k < length values)%nat ->
          exists rest,
            shown !! k =
              Some (rest ++ [mkChatMessage aid assistant (concat_text (take (S k) decoded))]))
    /\ (error (home p') = None ->
          tail = [] /\
          exists rest,
            messages (home p') = rest ++ [mkChatMessage aid assistant (concat_text decoded)]).
Proof.
  intros Hrelay p' decoded.
  destruct (submitMessage_run message p)
    as (q & new & convId & uid & E & _ & Ht & _ & _ & _ & R).
  cbn zeta in R. rewrite Hrelay in R. fold decoded in R.
  destruct R as (aid & saved & tail & _ & Htr & _ & _ & Hfin).
  exists uid, aid, tail. cbn zeta.
  split; [|split; [|split]].
  - subst p'. rewrite Htr, Ht. by rewrite <- !app_assoc.
  - rewrite length_fmap, running_length. apply decode_all_length.
  - intros k Hk. rewrite list_lookup_fmap, running_lookup
      by (unfold decoded; by rewrite decode_all_length).
    cbn. rewrite set_assistant_content_snoc. eauto.
  - intros Herr. destruct (Hfin Herr) as [-> Hmsg]. split; [done|].
    destruct (streamed_into_last aid
                (messages (home p) ++ [mkChatMessage uid user message]) decoded)
      as (shown & Hshown & _).
    exists shown. subst p'. by rewrite Hmsg, Hshown.
Qed.

(** C1, as the code has it. When the relay exchange fails (the fetch rejects,
    the response cannot be read, or a chunk read throws), no append-messages
    call is made, and the final transcript is the last transcript shown with
    its empty entries removed: an assistant entry that has received no text
    disappears, and one that has accumulated text stays, with that text, as
    the last entry. *)
Theorem failed_stream_drops_only_empty_entries message p :
  relay_failed (classify (relay_answer message p)) ->
  let p' := (submitMessage message p).1 in
  List.filter is_POST_messages (requests p') = List.filter is_POST_messages (requests p)
  /\ Forall (λ m, cm_content m <> "") (messages (home p'))
  /\ (exists before shown,
        transcripts p' = before ++ [shown; drop_empty shown]
        /\ messages (home p') = drop_empty shown)
  /\ forall values e,
       classify (relay_answer message p) = FailedMidStream values e ->
       let partial := concat_text (decode_all (new_TextDecoder P) values) in
       partial <> "" ->
       exists aid rest, messages (home p') = rest ++ [mkChatMessage aid assistant partial].
Proof.
  intros Hfail p'.
  destruct (submitMessage_run message p)
    as (q & new & convId & uid & E & Hr & Ht & Hq & _ & _ & R).
  cbn zeta in R.
  destruct (classify (relay_answer message p)) as [values|e|values e] eqn:Hrelay; [done| |].
  - destruct R as (Hreq & Hmsg & Htr). subst p'.
    split; [|split; [|split]].
    + rewrite Hreq, Hr, !List.filter_app. cbn.
      by rewrite (filter_quiet_messages new), !app_nil_r.
    + rewrite Hmsg. apply drop_empty_nonempty.
    + eexists (transcripts p), _. split; [|exact Hmsg].
      rewrite Htr, Ht. by rewrite <- app_assoc.
    + intros ? ? [=].
  - destruct R as (aid & Hreq & Hmsg & Htr). subst p'.
    set (decoded := decode_all (new_TextDecoder P) values) in *.
    set (upd := messages (home p) ++ [mkChatMessage uid user message]) in *.
    set (base := upd ++ [mkChatMessage aid assistant ""]) in *.
    split; [|split; [|split]].
    + rewrite Hreq, Hr, !List.filter_app. cbn.
      by rewrite (filter_quiet_messages new), !app_nil_r.
    + rewrite Hmsg. apply drop_empty_nonempty.
    + destruct (running "" decoded) as [|a0 rest0] eqn:Hrun using rev_ind.
      * exists (transcripts p ++ [upd]), base. split; [|exact Hmsg].
        rewrite Htr, Ht. cbn. by rewrite <- !app_assoc.
      * assert (streamed_into aid base (rest0 ++ [a0]) = set_assistant_content aid a0 base)
          as Hs by (unfold streamed_into; by rewrite last_snoc).
        eexists (transcripts p ++ [upd] ++ [base] ++ _), _.
        split; [|rewrite Hmsg, Hs; reflexivity].
        rewrite Htr, Ht, Hs, fmap_app. cbn. by rewrite <- !app_assoc.
    + intros values' e' [= <- <-] partial Hne.
      destruct (streamed_into_last aid upd decoded) as (shown & Hshown & _).
      exists aid, (drop_empty shown).
      rewrite Hmsg. unfold base. rewrite Hshown. by apply drop_empty_snoc.
Qed.

End Submission.

(** ** The streaming update *)

Lemma set_assistant_content_frame (assistantId assistantContent : string)
    (prev : list ChatMessage) :
  length (set_assistant_content assistantId assistantContent prev) = length prev
  /\ forall i m,
       prev !! i = Some m ->
       exists m',
         set_assistant_content assistantId assistantContent prev !! i = Some m'
         /\ cm_id m' = cm_id m
         /\ cm_role m' = cm_role m
         /\ (cm_id m <> assistantId -> m' = m)
         /\ (cm_id m = assistantId -> cm_content m' = assistantContent).
Proof.
  unfold set_assistant_content. split; [apply length_fmap|].
  intros i m Hi. rewrite list_lookup_fmap, Hi. cbn.
  eexists. split; [reflexivity|].
  destruct (String.eqb_spec (cm_id m) assistantId) as [Heq|Hne]; cbn; repeat split; done.
Qed.

(** C8. The update of the transcript made for a chunk changes nothing but
    the content of the entries whose id is the streaming assistant id: the
    transcript keeps its length and order, every entry keeps its id and
    role, an entry with another id is unchanged, and an entry with the
    assistant id gets the accumulated content. *)
Theorem chunk_update_frame {P : Platform} (assistantId assistantContent : string)
    (p : Page P) :
  let prev := messages (home p) in
  let next :=
    messages (home (updateMessages
                      (set_assistant_content assistantId assistantContent) p).1) in
  length next = length prev
  /\ forall i m,
       prev !! i = Some m ->
       exists m',
         next !! i = Some m'
         /\ cm_id m' = cm_id m
         /\ cm_role m' = cm_role m
         /\ (cm_id m <> assistantId -> m' = m)
         /\ (cm_id m = assistantId -> cm_content m' = assistantContent).
Proof. cbn. apply set_assistant_content_frame. Qed.

(** Every step of the reading loop is such an update. *)
Lemma read_loop_step {P : Platform} assistantId decoder assistantContent value rest fin
    (p : Page P) :
  read_loop assistantId decoder assistantContent (value :: rest) fin p =
    let (decoder', chunk) := decode P decoder value in
    read_loop assistantId decoder' (assistantContent +:+ chunk) rest fin
      (updateMessages
         (set_assistant_content assistantId (assistantContent +:+ chunk)) p).1.
Proof. cbn. destruct (decode P decoder value). reflexivity. Qed.

(** ** The API client *)

(** C10. [createConversation] sends one request, the creation request, whose
    body is [{title: null}] when the title is omitted or is the empty string
    and [{title: t}] for a non-empty title [t]. *)
Theorem createConversation_body {P : Platform} (title : option string) (p : Page P) :
  requests (createConversation title p).1 =
    requests p ++
    [any (POST_conversations
            (JObj [("title", match title with
                             | None => JNull
                             | Some EmptyString => JNull
                             | Some t => JStr t
                             end)]))].
Proof.
  unfold createConversation, mbind, M_bind. rewrite fetch_run.
  destruct ((serve P _ _ (world p)).2) as [e|resp]; cbn.
  - destruct title as [[|ch t]|]; reflexivity.
  - destruct (ok resp); cbn; [unfold response_json; destruct (payload resp)|];
      cbn; destruct title as [[|ch t]|]; reflexivity.
Qed.

(** ** The chat input *)

(** One event: when the handler calls [onSubmit], the argument is the
    trimmed input, it is not empty, and [isLoading] is false. *)
Lemma handle_call isLoading (e : ChatInput.Event) (input input' arg : string) :
  ChatInput.handle isLoading e input = (input', Some arg) ->
  arg = trim input /\ arg <> "" /\ isLoading = false.
Proof.
  assert (forall i' a, ChatInput.handleSubmit isLoading input = (i', Some a) ->
            a = trim input /\ a <> "" /\ isLoading = false) as Hs.
  { unfold ChatInput.handleSubmit. intros i' a.
    destruct (truthy (trim input)) eqn:Ht; destruct isLoading; cbn; intros [= <- <-].
    split; [done|]. split; [by apply truthy_spec | done]. }
  destruct e as [value| |key shiftKey]; cbn.
  - intros [=].
  - apply Hs.
  - unfold ChatInput.handleKeyDown.
    destruct (String.eqb key "Enter" && negb shiftKey); [apply Hs | intros [=]].
Qed.

(** X23. In every session of the chat input, whatever the events and however
    [isLoading] changes between them, each [onSubmit] call passes the
    trimmed value of the input of that moment, that value is not empty, and
    [isLoading] is false when the call is made. *)
Theorem onSubmit_only_trimmed_nonempty_idle events : forall input,
  Forall (λ c, ChatInput.call_argument c = trim (ChatInput.call_input c)
               /\ ChatInput.call_argument c <> ""
               /\ ChatInput.call_isLoading c = false)
    (ChatInput.run events input).2.
Proof.
  induction events as [|[isLoading e] rest IH]; intros input; cbn; [constructor|].
  destruct (ChatInput.handle isLoading e input) as [input' call] eqn:E.
  specialize (IH input'). destruct (ChatInput.run rest input') as [final calls].
  cbn in *. destruct call as [arg|]; [|exact IH].
  constructor; [|exact IH]. cbn.
  by apply (handle_call _ _ _ _ _ E).
Qed.

(** The submit button is enabled exactly when submitting calls [onSubmit]. *)
Lemma submit_enabled_iff_calls isLoading input :
  ChatInput.submit_disabled isLoading input = false <->
  exists arg, (ChatInput.handleSubmit isLoading input).2 = Some arg.
Proof.
  unfold ChatInput.submit_disabled, ChatInput.handleSubmit.
  destruct (truthy (trim input)), isLoading; cbn; split; try done; eauto.
  all: intros [? [=]].
Qed.

(** ** Submissions from the chat area *)

(** C9. The guard of the chat input does not keep a second submission from
    starting while a stream is in flight, because the welcome screen calls
    the same [onSubmit] without looking at [isLoading]. With the backend
    down, "Hello" is submitted, the relay answers, the chunk "Hi " is shown
    and the chunk "there" is still to come when New Chat is clicked: the
    transcript is empty, the page is still loading and the first submission
    is suspended at [reader.read()]. In that state the form of the chat
    input does not call [onSubmit], whatever is typed; a click on the first
    example of the welcome screen does, and a second request goes to the
    relay while the first submission is still reading its stream. *)
Theorem example_click_starts_second_submission :
  let question :=
    "What are the best practices for migrating an on-premise application to Google Cloud?" in
  let first := POST_chat (chat_body [mkChatMessage "1000" user "Hello"]) in
  let second := POST_chat (chat_body [mkChatMessage "1014" user question]) in
  let b := Browser.run
             (Browser.mkState (demo_page false ["Hi "; "there"] StreamDone) "" [])
             [Browser.Form (ChatInput.Change "Hello"); Browser.Form ChatInput.Submit;
              Browser.Arrived 0; Browser.Arrived 0; Browser.NewChatClick] in
  let b' := Browser.step b (Browser.ExampleClick 0) in
  Browser.waits b = [await_reader_read]
  /\ isChatLoading (home (Browser.page b)) = true
  /\ transcripts (Browser.page b) =
       [ [mkChatMessage "1000" user "Hello"];
         [mkChatMessage "1000" user "Hello"; mkChatMessage "1008" assistant ""];
         [mkChatMessage "1000" user "Hello"; mkChatMessage "1008" assistant "Hi "];
         [] ]
  /\ requests (Browser.page b) = [any first]
  /\ Browser.onSubmit_call (Browser.step b (Browser.Form (ChatInput.Change "again")))
       (Browser.Form ChatInput.Submit) = None
  /\ Browser.onSubmit_call b (Browser.ExampleClick 0) = Some question
  /\ Browser.waits b' = [await_reader_read; await_fetch_chat]
  /\ requests (Browser.page b') = [any first; any second].
Proof. cbn zeta. repeat split; vm_compute; reflexivity. Qed.

(** ** The chat relay route *)

Section RouteFacts.
Variable provider : StreamTextOptions -> Outcome TextStream.

(** A body that parses to a non-null value without a [messages] array is
    answered 400 with an error object, and the model is not called. *)
Lemma POST_invalid_messages body messages :
  destructure_messages body = Returns messages ->
  falsy messages || negb (isArray messages) = true ->
  ChatRoute.handle provider (Returns body) =
    ([], Some (json_error_response 400 "Invalid request: messages array required")).
Proof.
  intros Hd Hbad. unfold ChatRoute.handle, ChatRoute.POST, try_catch, mbind, M_bind, await.
  cbn. rewrite Hd, Hbad. reflexivity.
Qed.

(** A valid request whose model call succeeds is answered 200 with the text
    stream itself as the body. *)
Lemma POST_streams members items result :
  lookup_member "messages" members = Some (JArr items) ->
  provider (ChatRoute.options_for items) = Returns result ->
  ChatRoute.handle provider (Returns (JObj members)) =
    ([ChatRoute.options_for items], Some (toTextStreamResponse result)).
Proof.
  intros Hm Hp. unfold ChatRoute.handle, ChatRoute.POST, try_catch, mbind, M_bind, await,
    ChatRoute.streamText.
  cbn. rewrite Hm. cbn. fold (ChatRoute.options_for items). rewrite Hp. reflexivity.
Qed.

(** A valid request whose model call throws is answered 500 with an error
    object. *)
Lemma POST_upstream_failure members items e :
  lookup_member "messages" members = Some (JArr items) ->
  provider (ChatRoute.options_for items) = Throws e ->
  exists message,
    ChatRoute.handle provider (Returns (JObj members)) =
      ([ChatRoute.options_for items], Some (json_error_response 500 message)).
Proof.
  intros Hm Hp. unfold ChatRoute.handle, ChatRoute.POST, try_catch, mbind, M_bind, await,
    ChatRoute.streamText.
  cbn. rewrite Hm. cbn. fold (ChatRoute.options_for items). rewrite Hp.
  destruct e as [message|]; [destruct (includes "API key" message)|]; eauto.
Qed.

(** C3, at the input where the code departs from it. A request whose body is
    not valid JSON, so that [req.json()] rejects, is answered by the [catch]
    block: status 500, not a 4xx; the model is not called. *)
Theorem POST_invalid_json_is_500 (e : Thrown) :
  exists message,
    ChatRoute.handle provider (Throws e) = ([], Some (json_error_response 500 message)).
Proof.
  unfold ChatRoute.handle, ChatRoute.POST, try_catch, mbind, M_bind, await. cbn.
  destruct e as [message|]; [destruct (includes "API key" message)|]; eauto.
Qed.

(** The body [null] is valid JSON without a [messages] field, and it is
    answered 500 as well. *)
Lemma POST_null_is_500 :
  ChatRoute.handle provider (Returns JNull) =
    ([], Some (json_error_response 500 "An error occurred while processing your request.")).
Proof. reflexivity. Qed.

(** C5. For a request whose [messages] is an array, exactly one call is made
    to the hosted model; it carries the fixed system prompt and the items of
    the array as they came, in their order. *)
Theorem POST_forwards_messages_unchanged members items :
  lookup_member "messages" members = Some (JArr items) ->
  (ChatRoute.handle provider (Returns (JObj members))).1 =
    [{| model := "gemini-2.5-flash"; system := SYSTEM_PROMPT;
        st_messages := items; temperature := 7 # 10 |}].
Proof.
  intros Hm. unfold ChatRoute.handle, ChatRoute.POST, try_catch, mbind, M_bind, await,
    ChatRoute.streamText.
  cbn. rewrite Hm. cbn.
  destruct (provider _) as [[message|]|result]; cbn;
    [destruct (includes "API key" message)| |]; reflexivity.
Qed.

End RouteFacts.

(** ** The conversation store *)

Lemma cascade_leaves_no_row id (rows : list Backend.MessageRow) :
  filter (λ m, Backend.conversation_id m = id)
    (filter (λ m, Backend.conversation_id m ≠ id) rows) = [].
Proof.
  induction rows as [|m l IH]; [done|].
  rewrite filter_cons. destruct (decide (Backend.conversation_id m ≠ id)) as [Hne|Heq].
  - rewrite filter_cons. by destruct (decide (Backend.conversation_id m = id)).
  - exact IH.
Qed.

(** A conversation that has just been created exists in the store. *)
Lemma created_conversation_exists (s : Backend.Store) body c :
  payload (Backend.serve _ (POST_conversations body) s).2 = Some c ->
  is_Some (Backend.conversation_rows (Backend.serve _ (POST_conversations body) s).1
             !! conv_id c).
Proof.
  cbn. unfold Backend.create_conversation.
  destruct (Backend.decode_title body); cbn; [|done].
  intros [= <-]. cbn. rewrite lookup_insert_eq. eauto.
Qed.

(** C7. In the store, for a conversation that exists, DELETE answers 2xx, a
    following GET on the same id answers 404 without a body, so that the
    client's [getConversation] throws, and no message row of that
    conversation is left: every row that belonged to it is gone. *)
Theorem delete_then_get_not_found (s : Backend.Store) (id : string) :
  is_Some (Backend.conversation_rows s !! id) ->
  let (s1, deleted) := Backend.serve _ (DELETE_conversation id) s in
  let (s2, got) := Backend.serve _ (GET_conversation id) s1 in
  ok deleted = true
  /\ got = mkResponse 404 None
  /\ Backend.messages_of id s1 = []
  /\ Backend.messages_of id s2 = []
  /\ (forall m, m ∈ Backend.message_rows s -> Backend.conversation_id m = id ->
        (m ∉ Backend.message_rows s1) /\ (m ∉ Backend.message_rows s2))
  /\ (Backend.serve _ (POST_messages id (JArr [])) s2).2 = mkResponse 404 None.
Proof.
  intros [row Hrow]. unfold Backend.serve, Backend.tick.
  unfold Backend.delete_conversation at 1. cbn. rewrite Hrow.
  unfold Backend.get_conversation, Backend.add_messages. cbn. rewrite lookup_delete_eq.
  assert (forall m, m ∈ Backend.message_rows s -> Backend.conversation_id m = id ->
            m ∉ filter (λ m, Backend.conversation_id m ≠ id) (Backend.message_rows s)) as Hgone.
  { intros m _ Hid Hin. apply list_elem_of_filter in Hin as [Hne _]. done. }
  pose proof (cascade_leaves_no_row id (Backend.message_rows s)) as Hnone.
  repeat split; try done; try (by apply Hgone).
  cbn. by rewrite lookup_delete_eq.
Qed.

(** ** Deleting a conversation, from the client *)

(** [deleteConversation] and [getConversation] address the same URL. *)
Lemma delete_and_get_same_url BACKEND_URL id :
  (request_line BACKEND_URL (DELETE_conversation id)).2 =
  (request_line BACKEND_URL (GET_conversation id)).2.
Proof. reflexivity. Qed.

(** C7. Against the store, for a conversation that exists: the client's
    [deleteConversation] succeeds, a following [getConversation] on the same
    id throws because the store answers not-found, and no message row of the
    conversation is left in the store: every row that belonged to it is
    gone. *)
Theorem deleted_conversation_is_gone (p : Page deployment) (id : string) :
  dep_backend_up (world p) = true ->
  is_Some (Backend.conversation_rows (dep_store (world p)) !! id) ->
  let p1 := (deleteConversation id p).1 in
  let p2 := (getConversation id p1).1 in
  (deleteConversation id p).2 = Returns ()
  /\ (getConversation id p1).2 = Throws (JsError "Failed to fetch conversation")
  /\ (Backend.serve _ (GET_conversation id) (dep_store (world p1))).2 = mkResponse 404 None
  /\ Backend.messages_of id (dep_store (world p1)) = []
  /\ Backend.messages_of id (dep_store (world p2)) = []
  /\ forall m, m ∈ Backend.message_rows (dep_store (world p)) ->
       Backend.conversation_id m = id ->
       (m ∉ Backend.message_rows (dep_store (world p1)))
       /\ (m ∉ Backend.message_rows (dep_store (world p2))).
Proof.
  intros Hup Hex.
  pose proof (delete_then_get_not_found (dep_store (world p)) id Hex) as H.
  unfold deleteConversation, getConversation, mbind, M_bind, fetch.
  change (serve deployment) with deployment_serve. unfold deployment_serve.
  cbn [world]. rewrite Hup.
  destruct (Backend.serve unit (DELETE_conversation id) (dep_store (world p)))
    as [s1 deleted] eqn:E1. cbn [world dep_backend_up dep_store fst snd].
  destruct (Backend.serve _ (GET_conversation id) s1) as [s2 got] eqn:E2.
  destruct H as (Hok & -> & Hm1 & Hm2 & Hrows & _). cbn. rewrite Hok. cbn.
  change (Backend.get_conversation id (Backend.tick s1))
    with (Backend.serve _ (GET_conversation id) s1).
  rewrite E2. cbn. repeat split; try done; by apply Hrows.
Qed.

(** ** Concrete runs *)

Lemma deleted_conversation_is_gone_witness :
  let p := @start_Page deployment initial_HomeState
             (mkDeployment demo_store true (demo_provider [] StreamDone) 1000) in
  (getConversation "conv-1" (deleteConversation "conv-1" p).1).2 =
    Throws (JsError "Failed to fetch conversation")
  /\ Backend.messages_of "conv-1" (dep_store (world (deleteConversation "conv-1" p).1)) = [].
Proof.
  intros p.
  destruct (deleted_conversation_is_gone p "conv-1") as (_ & Hget & _ & Hrows & _).
  - reflexivity.
  - vm_compute. eauto.
  - split; [exact Hget | exact Hrows].
Defined.

Example demo_store_rows :
  Backend.message_of <$> Backend.message_rows demo_store =
    [mkMessage 1 user "Hello" "2"; mkMessage 2 assistant "Hi there" "2"].
Proof. vm_compute. reflexivity. Qed.

Lemma completed_stream_persists_pair_once_witness :
  List.filter is_POST_messages
    (requests (submitMessage "Hello" (demo_page true ["Hi "; "there"] StreamDone)).1) =
  [any (POST_messages "conv-1" (pair_body "Hello" "Hi there"))].
Proof.
  apply (completed_stream_persists_pair_once (P := deployment) "Hello"
           (demo_page true ["Hi "; "there"] StreamDone) "conv-1" ["Hi "; "there"]);
    vm_compute; reflexivity.
Defined.

Lemma unavailable_backend_still_streams_witness :
  let p := demo_page false ["Hi "; "there"] StreamDone in
  List.filter is_backend_request (requests (submitMessage "Hello" p).1) = []
  /\ exists aid shown,
       messages (home (submitMessage "Hello" p).1) =
         shown ++ [mkChatMessage aid assistant "Hi there"].
Proof.
  intros p.
  destruct (unavailable_backend_still_streams (P := deployment) "Hello" p)
    as (uid & _ & Hnone & Hfull); [reflexivity|].
  split; [exact Hnone|].
  destruct (Hfull ["Hi "; "there"]) as (aid & shown & _ & Hlast); [vm_compute; reflexivity|].
  exists aid, shown. exact Hlast.
Defined.

Lemma chunks_accumulate_in_order_witness :
  exists aid rest,
    messages (home (submitMessage "Hello" (demo_page true ["Hi "; "there"] StreamDone)).1) =
      rest ++ [mkChatMessage aid assistant "Hi there"].
Proof.
  destruct (chunks_accumulate_in_order (P := deployment) "Hello"
              (demo_page true ["Hi "; "there"] StreamDone) ["Hi "; "there"])
    as (uid & aid & tail & _ & _ & _ & Hfin); [vm_compute; reflexivity|].
  destruct Hfin as (_ & rest & Hlast); [vm_compute; reflexivity|].
  exists aid, rest. exact Hlast.
Defined.

(** The scenario of the specification, run: one conversation is created,
    "Hello" is sent, the reply arrives as "Hi " then "there". *)
Example hello_scenario :
  let p := (submitMessage "Hello" (demo_page true ["Hi "; "there"] StreamDone)).1 in
  messages (home p) =
    [mkChatMessage "1000" user "Hello"; mkChatMessage "1008" assistant "Hi there"]
  /\ transcripts p =
       [ [mkChatMessage "1000" user "Hello"];
         [mkChatMessage "1000" user "Hello"; mkChatMessage "1008" assistant ""];
         [mkChatMessage "1000" user "Hello"; mkChatMessage "1008" assistant "Hi "];
         [mkChatMessage "1000" user "Hello"; mkChatMessage "1008" assistant "Hi there"] ]
  /\ Backend.message_of <$> Backend.message_rows (dep_store (world p)) =
       [mkMessage 1 user "Hello" "3"; mkMessage 2 assistant "Hi there" "3"].
Proof. vm_compute. repeat split; reflexivity. Qed.

Lemma failed_stream_drops_only_empty_entries_witness :
  let p := demo_page true ["Hi "] (StreamThrows (JsError "network error")) in
  List.filter is_POST_messages (requests (submitMessage "Hello" p).1) = []
  /\ exists aid rest,
       messages (home (submitMessage "Hello" p).1) = rest ++ [mkChatMessage aid assistant "Hi "].
Proof.
  intros p.
  destruct (failed_stream_drops_only_empty_entries (P := deployment) "Hello" p)
    as (Hnone & _ & _ & Hpartial); [vm_compute; exact I|].
  split; [exact Hnone|].
  apply (Hpartial ["Hi "] (JsError "network error")); [vm_compute; reflexivity|].
  vm_compute. discriminate.
Defined.

(** C1 as stated fails: the stream delivers "Hi " and the next read throws;
    the exchange has failed, yet the partial assistant message is still in
    the final transcript. *)
Lemma partial_reply_stays_visible :
  let p := demo_page true ["Hi "] (StreamThrows (JsError "network error")) in
  relay_failed (classify (relay_answer "Hello" p))
  /\ mkChatMessage "1008" assistant "Hi " ∈ messages (home (submitMessage "Hello" p).1).
Proof.
  split; [vm_compute; exact I|].
  vm_compute. apply list_elem_of_In. right. left. reflexivity.
Qed.

Lemma POST_forwards_messages_unchanged_witness :
  (ChatRoute.handle (demo_provider ["Hi"] StreamDone)
     (Returns (chat_body [mkChatMessage "1000" user "Hello"]))).1 =
  [ChatRoute.options_for [json_of_ChatMessage (mkChatMessage "1000" user "Hello")]].
Proof.
  apply (POST_forwards_messages_unchanged (demo_provider ["Hi"] StreamDone)
           [("messages", JArr [json_of_ChatMessage (mkChatMessage "1000" user "Hello")])]).
  reflexivity.
Defined.

Example chat_input_session :
  ChatInput.run
    [(false, ChatInput.Change "  hi  "); (false, ChatInput.KeyDown "Enter" true);
     (false, ChatInput.KeyDown "Enter" false);
     (true, ChatInput.Change "again"); (true, ChatInput.Submit);
     (false, ChatInput.Change "   "); (false, ChatInput.Submit);
     (false, ChatInput.Change "again"); (false, ChatInput.Submit)] "" =
  ("", [ChatInput.mkCall false "  hi  " "hi"; ChatInput.mkCall false "again" "again"]).
Proof. vm_compute. reflexivity. Qed.

(** * Further properties *)

(** ** The other handlers of [Home] *)

Section Handlers.
Context {P : Platform}.
Implicit Types (p q : Page P) (message id : string).

Local Ltac exec :=
  unfold mbind, M_bind, mret, M_ret, try_catch, try_finally, throw_Error, throw,
    modify, gets, with_home, response_json;
  cbn [home world requests toasts transcripts fst snd].

(** [loadConversations], as one state change. *)
Lemma loadConversations_eq p :
  let answer := (serve P _ GET_conversations (world p)).2 in
  let h := home p in
  loadConversations p =
    (mkPage
       (mkHomeState (default (conversations h) (loaded answer)) (currentConversationId h)
          (sidebarOpen h) false (bool_decide (is_Some (loaded answer))) (messages h)
          (isChatLoading h) (error h))
       (serve P _ GET_conversations (world p)).1
       (requests p ++ [any GET_conversations])
       (toasts p ++ match loaded answer with
                    | Some _ => []
                    | None => ["Failed to load conversations from backend"]
                    end)
       (transcripts p),
     Returns ()).
Proof.
  cbn zeta. unfold loadConversations, getConversations. exec. rewrite fetch_run.
  unfold loaded.
  destruct (serve P _ GET_conversations (world p)) as [w [e|resp]]; cbn.
  - unfold toast_error, setBackendAvailable, setIsLoadingConversations. exec. reflexivity.
  - destruct (ok resp); cbn.
    + destruct (payload resp); cbn.
      * rewrite app_nil_r. reflexivity.
      * reflexivity.
    + reflexivity.
Qed.

(** X1. [loadConversations] never throws and sends one request. It leaves
    [isLoadingConversations] false; [backendAvailable] becomes true exactly
    when the list was obtained, in which case it replaces [conversations];
    otherwise the list shown is kept and a toast is raised. The chat itself
    (transcript, loading flag, error, current conversation) is untouched. *)
Theorem loadConversations_outcome p :
  let answer := (serve P _ GET_conversations (world p)).2 in
  let p' := (loadConversations p).1 in
  (loadConversations p).2 = Returns ()
  /\ requests p' = requests p ++ [any GET_conversations]
  /\ isLoadingConversations (home p') = false
  /\ match loaded answer with
     | Some convs =>
         backendAvailable (home p') = true
         /\ conversations (home p') = convs
         /\ toasts p' = toasts p
     | None =>
         backendAvailable (home p') = false
         /\ conversations (home p') = conversations (home p)
         /\ toasts p' = toasts p ++ ["Failed to load conversations from backend"]
     end
  /\ chat_fields (home p') = chat_fields (home p)
  /\ currentConversationId (home p') = currentConversationId (home p)
  /\ transcripts p' = transcripts p.
Proof.
  cbn zeta. rewrite loadConversations_eq. cbn.
  destruct (loaded _); cbn; rewrite ?app_nil_r; repeat split; reflexivity.
Qed.

(** [createConversation], as one state change. *)
Lemma createConversation_eq title p :
  let r := POST_conversations (JObj [("title", title_or_null title)]) in
  createConversation title p =
    (mkPage (home p) (serve P _ r (world p)).1 (requests p ++ [any r]) (toasts p)
       (transcripts p),
     match (serve P _ r (world p)).2 with
     | FetchRejects e => Throws e
     | Responds response =>
         if ok response then
           match payload response with
           | Some c => Returns c
           | None => Throws (JsError "SyntaxError: Unexpected token in JSON")
           end
         else Throws (JsError "Failed to create conversation")
     end).
Proof.
  cbn zeta. unfold createConversation. exec. rewrite fetch_run.
  destruct (serve P _ _ (world p)) as [w [e|resp]]; cbn; [reflexivity|].
  destruct (ok resp); cbn; [|reflexivity]. destruct (payload resp); reflexivity.
Qed.

(** X2. [handleNewConversation] never throws and always empties the
    transcript. With the backend unavailable it sends nothing and leaves no
    current conversation. Otherwise it asks for a new conversation: when that
    succeeds the new id becomes the current conversation and the list is
    reloaded; when it fails there is no current conversation, a toast is
    raised and the list is not reloaded. *)
Theorem handleNewConversation_outcome p :
  let create := POST_conversations (JObj [("title", JNull)]) in
  let answer := (serve P _ create (world p)).2 in
  let p' := (handleNewConversation p).1 in
  (handleNewConversation p).2 = Returns ()
  /\ messages (home p') = []
  /\ transcripts p' = transcripts p ++ [[]]
  /\ (if backendAvailable (home p) then
        match loaded answer with
        | Some c =>
            currentConversationId (home p') = Some (conv_id c)
            /\ requests p' = requests p ++ [any create; any GET_conversations]
        | None =>
            currentConversationId (home p') = None
            /\ requests p' = requests p ++ [any create]
            /\ toasts p' = toasts p ++ ["Failed to create new conversation"]
        end
      else
        currentConversationId (home p') = None
        /\ requests p' = requests p
        /\ toasts p' = toasts p).
Proof.
  cbn zeta. unfold handleNewConversation, setMessages, updateMessages,
    setCurrentConversationId. exec.
  destruct (backendAvailable (home p)) eqn:Hb; cbn.
  2:{ repeat split; reflexivity. }
  rewrite createConversation_eq. cbn. unfold loaded.
  destruct (serve P _ _ (world p)) as [w [e|resp]]; cbn.
  { unfold toast_error. exec. repeat split; reflexivity. }
  destruct (ok resp); cbn.
  2:{ unfold toast_error. exec. repeat split; reflexivity. }
  destruct (payload resp) as [c|]; cbn.
  2:{ unfold toast_error. exec. repeat split; reflexivity. }
  rewrite loadConversations_eq. cbn. rewrite <- app_assoc. repeat split; reflexivity.
Qed.

(** X3. [handleSelectConversation] never throws and sends one request. When
    the conversation is obtained it becomes the current one and the
    transcript becomes its messages, in the same order, each with its role
    and content and the decimal text of its number as id. When it is not,
    the state of the page is as before, except for a toast. *)
Theorem handleSelectConversation_outcome id p :
  let answer := (serve P _ (GET_conversation id) (world p)).2 in
  let p' := (handleSelectConversation id p).1 in
  (handleSelectConversation id p).2 = Returns ()
  /\ requests p' = requests p ++ [any (GET_conversation id)]
  /\ match loaded answer with
     | Some conv =>
         currentConversationId (home p') = Some id
         /\ messages (home p') =
              (λ msg, mkChatMessage (pretty (msg_id msg)) (msg_role msg) (msg_content msg))
                <$> cwm_messages conv
         /\ toasts p' = toasts p
     | None =>
         home p' = home p
         /\ transcripts p' = transcripts p
         /\ toasts p' = toasts p ++ ["Failed to load conversation"]
     end.
Proof.
  cbn zeta. unfold handleSelectConversation, getConversation, setMessages, updateMessages,
    setCurrentConversationId, toast_error. exec. rewrite fetch_run. unfold loaded.
  destruct (serve P _ _ (world p)) as [w [e|resp]]; cbn.
  { repeat split; reflexivity. }
  destruct (ok resp); cbn.
  2:{ repeat split; reflexivity. }
  destruct (payload resp) as [conv|]; cbn; repeat split; reflexivity.
Qed.

(** X4. The transcript built from the messages of a conversation has
    pairwise different ids whenever the messages have pairwise different
    numbers. *)
Theorem loaded_transcript_ids_distinct (msgs : list Message) :
  NoDup (msg_id <$> msgs) ->
  NoDup (cm_id <$> (chat_of_Message <$> msgs)).
Proof.
  intros Hnd. rewrite <- list_fmap_compose.
  replace (cm_id ∘ chat_of_Message) with (pretty ∘ msg_id) by reflexivity.
  rewrite list_fmap_compose. apply (NoDup_fmap_2 _). exact Hnd.
Qed.

(** X5. [handleDeleteConversation] never throws. When the deletion is
    refused or the request fails, the page keeps its state, a toast is
    raised and the list is not reloaded. When it is accepted, the transcript
    and the current conversation are cleared exactly when the deleted
    conversation is the current one, and the list is reloaded. *)
Theorem handleDeleteConversation_outcome id p :
  let answer := (serve P _ (DELETE_conversation id) (world p)).2 in
  let p' := (handleDeleteConversation id p).1 in
  (handleDeleteConversation id p).2 = Returns ()
  /\ if accepted answer then
       requests p' = requests p ++ [any (DELETE_conversation id); any GET_conversations]
       /\ (if decide (currentConversationId (home p) = Some id)
           then messages (home p') = [] /\ currentConversationId (home p') = None
           else messages (home p') = messages (home p)
                /\ currentConversationId (home p') = currentConversationId (home p))
     else
       home p' = home p
       /\ requests p' = requests p ++ [any (DELETE_conversation id)]
       /\ toasts p' = toasts p ++ ["Failed to delete conversation"].
Proof.
  cbn zeta. unfold handleDeleteConversation, deleteConversation, toast_error. exec.
  rewrite fetch_run. unfold accepted.
  destruct (serve P _ _ (world p)) as [w [e|resp]]; cbn.
  { destruct p as [[] ? ? ? ?]; repeat split; reflexivity. }
  destruct (ok resp); cbn.
  2:{ destruct p as [[] ? ? ? ?]; repeat split; reflexivity. }
  destruct (decide (currentConversationId (home p) = Some id)) as [Hcur|Hcur]; cbn.
  - unfold setMessages, updateMessages, setCurrentConversationId. exec.
    rewrite loadConversations_eq. cbn. rewrite <- app_assoc. repeat split; reflexivity.
  - rewrite loadConversations_eq. cbn. rewrite <- app_assoc. repeat split; reflexivity.
Qed.

(** X6. In the sidebar of the page, a click on the delete button of a row
    runs [handleDeleteConversation] and nothing else: the row is not selected
    and the sidebar stays as it is. A click on the row itself selects the
    conversation and closes the sidebar, whether or not the conversation
    could be loaded. *)
Theorem sidebar_delete_does_not_select (conv : Conversation) p :
  sidebar_click (ConversationSidebar.DeleteButton conv) p
    = handleDeleteConversation (conv_id conv) p
  /\ sidebarOpen (home (sidebar_click (ConversationSidebar.DeleteButton conv) p).1)
     = sidebarOpen (home p)
  /\ sidebarOpen (home (sidebar_click (ConversationSidebar.Row conv) p).1) = false
  /\ requests (sidebar_click (ConversationSidebar.Row conv) p).1
     = requests p ++ [any (GET_conversation (conv_id conv))].
Proof.
  assert (sidebar_click (ConversationSidebar.DeleteButton conv) p
            = handleDeleteConversation (conv_id conv) p) as Hdel.
  { unfold sidebar_click. exec. cbn. exec.
    destruct (handleDeleteConversation (conv_id conv) p) as [p' [e|[]]]; reflexivity. }
  split; [exact Hdel|]. rewrite Hdel. split.
  - unfold handleDeleteConversation, deleteConversation, toast_error. exec.
    rewrite fetch_run.
    destruct (serve P _ _ (world p)) as [w [e|resp]]; cbn; [reflexivity|].
    destruct (ok resp); cbn; [|reflexivity].
    destruct (decide (currentConversationId (home p) = Some (conv_id conv))); cbn.
    + unfold setMessages, updateMessages, setCurrentConversationId. exec.
      rewrite loadConversations_eq. reflexivity.
    + rewrite loadConversations_eq. reflexivity.
  - unfold sidebar_click. exec. cbn. exec.
    unfold handleSelectConversation, getConversation, setMessages, updateMessages,
      setCurrentConversationId, toast_error, setSidebarOpen. exec. rewrite fetch_run.
    destruct (serve P _ _ (world p)) as [w [e|resp]]; cbn; [done|].
    destruct (ok resp); cbn; [|done].
    destruct (payload resp); cbn; done.
Qed.
End Handlers.

(** ** More on one submission *)

Section MoreOnSubmission.
Context {P : Platform}.
Implicit Types (p q : Page P) (message id : string).

Local Ltac exec :=
  unfold mbind, M_bind, mret, M_ret, try_catch, try_finally, throw_Error, throw,
    modify, gets, with_home, response_json;
  cbn [home world requests toasts transcripts fst snd].

(** The [finally] block runs last. *)
Lemma attempt_resets_loading view convId message upd q :
  isChatLoading (home (attempt view convId message upd q).1) = false.
Proof.
  unfold attempt, try_finally.
  destruct (try_catch _ _ q) as [q' out]. unfold setIsChatLoading. exec. reflexivity.
Qed.

(** What [convId] is when the request to the relay is made. *)
Lemma ensure_conversation_result view p :
  let create := POST_conversations (JObj [("title", JNull)]) in
  (ensure_conversation view p).2 =
    Returns
      (if negb (truthy_opt (currentConversationId view)) && backendAvailable view then
         match loaded (serve P _ create (world p)).2 with
         | Some c => Some (conv_id c)
         | None => currentConversationId view
         end
       else currentConversationId view).
Proof.
  cbn zeta. unfold ensure_conversation.
  destruct (negb (truthy_opt (currentConversationId view)) && backendAvailable view);
    [|reflexivity].
  unfold createConversation, toast_error, setCurrentConversationId. exec.
  rewrite fetch_run. unfold loaded. cbn.
  destruct (serve P _ _ (world p)) as [w [e|resp]]; cbn; [reflexivity|].
  destruct (ok resp); cbn; [|reflexivity].
  destruct (payload resp) as [c|]; cbn; [|reflexivity].
  match goal with |- context [loadConversations ?x] =>
    destruct (loadConversations_run x) as (h & w' & ts & E & _) end.
  rewrite E. reflexivity.
Qed.

Lemma conversation_used_eq message p :
  let create := POST_conversations (JObj [("title", JNull)]) in
  let current := currentConversationId (home p) in
  conversation_used message p =
    if negb (truthy_opt current) && backendAvailable (home p) then
      match loaded (serve P _ create (world p)).2 with
      | Some c => Some (conv_id c)
      | None => current
      end
    else current.
Proof.
  cbn zeta. unfold conversation_used, opening, setError, setIsChatLoading. exec.
  match goal with |- context [ensure_conversation ?v ?x] =>
    pose proof (ensure_conversation_result v x) as R;
    destruct (ensure_conversation v x) as [q0 out] end.
  cbn in R. subst out.
  unfold add_user_message, setMessages, updateMessages. exec. rewrite date_now_run.
  reflexivity.
Qed.

(** The error that a failed exchange leaves. *)
Lemma attempt_failure_error view convId message upd q :
  let res := (serve P _ (POST_chat (chat_body upd)) (world q)).2 in
  match classify res with
  | Completed _ => True
  | FailedBeforeStream e | FailedMidStream _ e =>
      error (home (attempt view convId message upd q).1) = Some (error_message e)
  end.
Proof.
  cbn zeta. unfold attempt, stream_and_save. exec. rewrite fetch_run.
  destruct (serve P _ (POST_chat (chat_body upd)) (world q)) as [w [e|resp]]; cbn.
  { unfold setError, updateMessages, setIsChatLoading. exec. reflexivity. }
  destruct (ok resp); cbn.
  2:{ unfold setError, updateMessages, setIsChatLoading. exec. reflexivity. }
  destruct (payload resp) as [body|]; cbn.
  2:{ unfold setError, updateMessages, setIsChatLoading. exec. reflexivity. }
  rewrite date_now_run. cbn. unfold updateMessages at 2. exec.
  match goal with |- context [read_loop ?aid ?d "" ?vs ?fin ?x] =>
    destruct (read_loop_run aid fin vs d "" x) as (h & E & _ & _) end.
  rewrite E. cbn.
  destruct (ts_end body) as [|e]; [exact I|]. cbn.
  unfold setError, updateMessages, setIsChatLoading. exec. reflexivity.
Qed.

(** X7. [submitMessage] never throws, and when it is over [isChatLoading] is
    false again, whatever the backend and the relay did. *)
Theorem submitMessage_settles message p :
  (submitMessage message p).2 = Returns ()
  /\ isChatLoading (home (submitMessage message p).1) = false.
Proof.
  destruct (submitMessage_run message p)
    as (q & new & convId & uid & E & _ & _ & _ & _ & Hret & _).
  split; [exact Hret|].
  rewrite (submitMessage_attempt _ _ _ _ _ _ E). apply attempt_resets_loading.
Qed.

(** X8. Every submission sends exactly one request to the relay, whatever
    happens before and after it; its body is the transcript of the page
    followed by the new user message. *)
Theorem one_relay_request_per_submission message p :
  exists uid,
    List.filter is_POST_chat (requests (submitMessage message p).1) =
      List.filter is_POST_chat (requests p) ++
      [any (POST_chat (chat_body (messages (home p) ++ [mkChatMessage uid user message])))].
Proof.
  destruct (submitMessage_run message p)
    as (q & new & convId & uid & E & Hr & _ & Hq & _ & _ & R).
  cbn zeta in R. exists uid.
  destruct (classify (relay_answer message p)) as [values|e|values e].
  - destruct R as (aid & saved & tail & Hreq & _ & Hoff & Hon & _).
    rewrite Hreq, Hr, !List.filter_app, (filter_quiet_chat new Hq). cbn.
    destruct (truthy_opt convId && backendAvailable (home p)) eqn:G.
    + destruct convId as [id|]; [|done]. cbn in G.
      destruct (Hon id eq_refl G) as (follow & -> & Hf). cbn.
      by rewrite (filter_quiet_chat follow Hf), !app_nil_r.
    + destruct (Hoff eq_refl) as (-> & _). by rewrite !app_nil_r.
  - destruct R as (Hreq & _).
    rewrite Hreq, Hr, !List.filter_app, (filter_quiet_chat new Hq). by rewrite !app_nil_r.
  - destruct R as (aid & Hreq & _).
    rewrite Hreq, Hr, !List.filter_app, (filter_quiet_chat new Hq). by rewrite !app_nil_r.
Qed.

(** X9. The error shown after a failed exchange is the message of what was
    thrown. A relay response that is not ok gives "Failed to get response",
    whatever its status and body, and the transcript is then the previous
    one plus the user message, without their empty entries; a rejected fetch
    and a throwing read give the message of the rejection. *)
Theorem relay_failure_is_reported message p :
  let p' := (submitMessage message p).1 in
  (forall r, relay_answer message p = Responds r -> ok r = false ->
     error (home p') = Some "Failed to get response"
     /\ exists uid,
          messages (home p') =
            drop_empty (messages (home p) ++ [mkChatMessage uid user message]))
  /\ (forall r, relay_answer message p = Responds r -> ok r = true -> payload r = None ->
       error (home p') = Some "No response body")
  /\ (forall e, relay_answer message p = FetchRejects e ->
       error (home p') = Some (error_message e))
  /\ (forall r body e, relay_answer message p = Responds r -> ok r = true ->
       payload r = Some body -> ts_end body = StreamThrows e ->
       error (home p') = Some (error_message e)).
Proof.
  cbn zeta.
  destruct (submitMessage_run message p)
    as (q & new & convId & uid & E & _ & _ & _ & _ & _ & R).
  cbn zeta in R.
  pose proof (attempt_failure_error (home p) convId message
                (messages (home p) ++ [mkChatMessage uid user message]) q) as F.
  cbn zeta in F. rewrite <- (submitMessage_attempt _ _ _ _ _ _ E) in F.
  assert (relay_answer message p =
            (serve P _ (POST_chat (chat_body (messages (home p) ++
               [mkChatMessage uid user message]))) (world q)).2) as Hans
    by (unfold relay_answer; by rewrite E).
  rewrite <- Hans in F.
  split; [|split; [|split]].
  - intros r Hr Hok. rewrite Hr in F, R. cbn in F, R. rewrite Hok in F, R. cbn in F, R.
    split; [exact F|]. exists uid. by destruct R as (_ & Hm & _).
  - intros r Hr Hok Hbody. rewrite Hr in F. cbn in F. rewrite Hok, Hbody in F. exact F.
  - intros e Hr. rewrite Hr in F. exact F.
  - intros r body e Hr Hok Hbody Hend. rewrite Hr in F. cbn in F.
    rewrite Hok, Hbody, Hend in F. exact F.
Qed.

(** X10. A submission made with no current conversation and the backend
    available, whose stream completes: when the conversation is created (and
    its id is not empty) the exchange is saved once, under the new id; when
    the creation fails the reply is streamed all the same and no
    append-messages call is made. *)
Theorem first_exchange_is_saved_under_the_new_id message p values :
  truthy_opt (currentConversationId (home p)) = false ->
  backendAvailable (home p) = true ->
  classify (relay_answer message p) = Completed values ->
  let create := POST_conversations (JObj [("title", JNull)]) in
  let p' := (submitMessage message p).1 in
  let content := concat_text (decode_all (new_TextDecoder P) values) in
  match loaded (serve P _ create (world p)).2 with
  | Some c =>
      List.filter is_POST_messages (requests p') =
        List.filter is_POST_messages (requests p) ++
        (if truthy (conv_id c)
         then [any (POST_messages (conv_id c) (pair_body message content))]
         else [])
  | None =>
      List.filter is_POST_messages (requests p') = List.filter is_POST_messages (requests p)
      /\ exists aid rest,
           messages (home p') = rest ++ [mkChatMessage aid assistant content]
  end.
Proof.
  intros Hcur Hb Hrelay. cbn zeta.
  pose proof (conversation_used_eq message p) as Hused. cbn zeta in Hused.
  rewrite Hcur, Hb in Hused. cbn in Hused.
  destruct (submitMessage_run message p)
    as (q & new & convId & uid & E & Hr & _ & Hq & _ & _ & R).
  cbn zeta in R. rewrite Hrelay in R.
  destruct R as (aid & saved & tail & Hreq & _ & Hoff & Hon & _).
  unfold conversation_used in Hused. rewrite E in Hused. subst convId.
  rewrite Hreq, Hr, !List.filter_app, (filter_quiet_messages new Hq). cbn.
  destruct (loaded _) as [c|] eqn:Hl.
  - destruct (truthy (conv_id c)) eqn:Ht.
    + destruct (Hon (conv_id c) eq_refl) as (follow & -> & Hf); [by rewrite Ht, Hb|].
      cbn. by rewrite (filter_quiet_messages follow Hf), ?app_nil_r.
    + destruct Hoff as (-> & _); [cbn; by rewrite Ht|]. by rewrite ?app_nil_r.
  - destruct Hoff as (-> & _ & Hmsg).
    { destruct (currentConversationId (home p)); cbn in *; [by rewrite Hcur|done]. }
    split; [cbn; by rewrite !app_nil_r|].
    destruct (streamed_into_last aid
                (messages (home p) ++ [mkChatMessage uid user message])
                (decode_all (new_TextDecoder P) values)) as (shown & Hshown & _).
    exists aid, shown. by rewrite Hmsg, Hshown.
Qed.

Lemma save_to_backend_failure view id message content p :
  let r := POST_messages id (pair_body message content) in
  truthy id && backendAvailable view = true ->
  loaded (serve P _ r (world p)).2 = None ->
  save_to_backend view (Some id) message content p =
    (mkPage (home p) (serve P _ r (world p)).1 (requests p ++ [any r]) (toasts p)
       (transcripts p),
     Throws (addMessages_thrown (serve P _ r (world p)).2)).
Proof.
  cbn zeta. intros G Hl. unfold save_to_backend. rewrite G.
  unfold addMessages. exec. rewrite fetch_run.
  change (JArr (json_of_new_message <$> [(user, message); (assistant, content)]))
    with (pair_body message content).
  unfold loaded, addMessages_thrown in *.
  destruct (serve P _ _ (world p)) as [w [e|resp]]; cbn in *; [reflexivity|].
  destruct (ok resp); cbn; [|reflexivity].
  destruct (payload resp); [discriminate|reflexivity].
Qed.

(** X11. When the stream has completed and the append-messages call then
    fails, the failure is reported as the error of the chat, the call is not
    repeated and the list is not reloaded; the transcript keeps the complete
    reply, unless the reply is empty, in which case its entry is removed. *)
Theorem save_failure_keeps_the_reply message p id values :
  conversation_used message p = Some id ->
  truthy id = true ->
  backendAvailable (home p) = true ->
  classify (relay_answer message p) = Completed values ->
  let content := concat_text (decode_all (new_TextDecoder P) values) in
  let save := POST_messages id (pair_body message content) in
  let answer := (serve P _ save (world_at_save message p)).2 in
  loaded answer = None ->
  let p' := (submitMessage message p).1 in
  error (home p') = Some (error_message (addMessages_thrown answer))
  /\ (exists before, requests p' = before ++ [any save]
       /\ List.filter is_POST_messages before = List.filter is_POST_messages (requests p))
  /\ Forall (λ m, cm_content m <> "") (messages (home p'))
  /\ (content <> "" ->
       exists aid rest, messages (home p') = rest ++ [mkChatMessage aid assistant content]).
Proof.
  intros Hused Ht Hb Hrelay content save answer Hl p'.
  destruct (opening_run message p)
    as (h & w & ts & new & convId & uid & E & Hm & He & Hq & _).
  cbn zeta in E.
  unfold conversation_used in Hused. rewrite E in Hused. subst convId.
  unfold relay_answer in Hrelay. rewrite E in Hrelay. cbn [world] in Hrelay.
  subst answer p'. unfold world_at_save in *. rewrite E in *. cbn [world] in *.
  rewrite (submitMessage_attempt _ _ _ _ _ _ E).
  set (upd := messages (home p) ++ [mkChatMessage uid user message]) in *.
  assert (exists w1 resp body,
            serve P _ (POST_chat (chat_body upd)) w = (w1, Responds resp)
            /\ ok resp = true /\ payload resp = Some body
            /\ ts_end body = StreamDone /\ ts_chunks body = values)
    as (w1 & resp & body & Hserve & Hok & Hbody & Hend & Hvalues).
  { unfold classify in Hrelay.
    destruct (serve P _ (POST_chat (chat_body upd)) w) as [w1 [e|resp]]; [discriminate|].
    cbn in Hrelay. destruct (ok resp) eqn:Hok; cbn in Hrelay; [|discriminate].
    destruct (payload resp) as [body|] eqn:Hbody; [|discriminate].
    destruct (ts_end body) eqn:Hend; [|discriminate].
    injection Hrelay as Hvalues. by exists w1, resp, body. }
  rewrite Hserve in Hl. cbn [fst snd] in Hl. subst content save. subst values.
  match goal with |- context [attempt ?a ?b ?c ?d ?x] =>
    destruct (attempt a b c d x) as [p' out] eqn:Ea end.
  unfold attempt, stream_and_save in Ea.
  unfold mbind, M_bind, try_catch, try_finally, throw_Error, throw in Ea.
  rewrite fetch_run in Ea. cbn [home world requests toasts transcripts] in Ea.
  rewrite Hserve in Ea. cbn [fst snd] in Ea. rewrite Hok in Ea. cbn [negb] in Ea.
  rewrite Hbody, date_now_run in Ea.
  cbn [home world requests toasts transcripts fst snd] in Ea.
  set (aid := pretty (_ + 1)) in Ea.
  unfold updateMessages at 1 in Ea. unfold modify in Ea.
  cbn [home world requests toasts transcripts fst snd] in Ea.
  match type of Ea with context [read_loop aid ?d "" ?vs ?fin ?x] =>
    destruct (read_loop_run aid fin vs d "" x) as (h1 & E1 & Hh1 & _) end.
  rewrite E1, Hend in Ea. cbn in Hh1. rewrite Hm in Hh1.
  cbn [home world requests toasts transcripts fst snd] in Ea.
  rewrite save_to_backend_failure in Ea; cbn [world]; [|by rewrite Ht, Hb|exact Hl].
  unfold setError, updateMessages, setIsChatLoading, modify, with_home in Ea.
  cbn in Ea. injection Ea as <- <-. cbn. rewrite Hserve. cbn [fst].
  split; [reflexivity|]. split; [|split].
  - eexists. split; [reflexivity|].
    rewrite !List.filter_app. cbn. by rewrite (filter_quiet_messages new Hq), !app_nil_r.
  - rewrite Hh1. apply drop_empty_nonempty.
  - intros Hne. rewrite Hh1.
    destruct (streamed_into_last aid upd (decode_all (new_TextDecoder P) (ts_chunks body)))
      as (shown & Hshown & _).
    exists aid, (drop_empty shown). rewrite Hshown. by apply drop_empty_snoc.
Qed.
End MoreOnSubmission.

(** ** More on the chat relay route *)

Section MoreOnRoute.
Variable provider : StreamTextOptions -> Outcome TextStream.

Local Ltac route :=
  unfold ChatRoute.handle, ChatRoute.POST, try_catch, mbind, M_bind, mret, M_ret, await,
    ChatRoute.streamText; cbn.

Lemma POST_catch (e : Thrown) calls :
  (match e with
   | JsError message =>
       if includes "API key" message then
         mret (json_error_response 500
                 "API key configuration error. Please check your GEMINI_API_KEY.")
       else
         mret (json_error_response 500 "An error occurred while processing your request.")
   | NotAnError =>
       mret (json_error_response 500 "An error occurred while processing your request.")
   end : M (list StreamTextOptions) RouteResponse) calls =
  (calls, Returns (json_error_response 500 (route_error_message e))).
Proof.
  destruct e as [message|]; cbn; [destruct (includes "API key" message)|]; reflexivity.
Qed.

(** The route, case by case. *)
Lemma handle_eq (req_json : Outcome json) :
  ChatRoute.handle provider req_json =
    match req_json with
    | Throws e => ([], Some (json_error_response 500 (route_error_message e)))
    | Returns body =>
        match destructure_messages body with
        | Throws e => ([], Some (json_error_response 500 (route_error_message e)))
        | Returns messages =>
            if falsy messages || negb (isArray messages) then
              ([], Some (json_error_response 400 "Invalid request: messages array required"))
            else
              let options := ChatRoute.options_for (array_items messages) in
              ([options],
               Some match provider options with
                    | Returns result => toTextStreamResponse result
                    | Throws e => json_error_response 500 (route_error_message e)
                    end)
        end
    end.
Proof.
  destruct req_json as [e|body]; route.
  { rewrite POST_catch. reflexivity. }
  destruct (destructure_messages body) as [e|messages]; cbn.
  { rewrite POST_catch. reflexivity. }
  destruct (falsy messages || negb (isArray messages)); cbn; [reflexivity|].
  fold (ChatRoute.options_for (array_items messages)).
  destruct (provider _) as [e|result]; cbn; [|reflexivity].
  rewrite POST_catch. reflexivity.
Qed.

(** X12. The route always answers: the handler never throws. It calls the
    hosted model at most once, and its answer is either the text stream with
    status 200, after one call, or an error object with status 400, with no
    call, or an error object with status 500. *)
Theorem POST_always_answers (req_json : Outcome json) :
  exists calls response,
    ChatRoute.handle provider req_json = (calls, Some response)
    /\ ((exists result, response = toTextStreamResponse result /\ length calls = 1%nat)
        \/ (exists message, response = json_error_response 400 message /\ calls = [])
        \/ (exists message, response = json_error_response 500 message
                            /\ (length calls <= 1)%nat)).
Proof.
  rewrite handle_eq. destruct req_json as [e|body].
  { eexists _, _. split; [reflexivity|]. right. right. eexists. split; [reflexivity|cbn; lia]. }
  destruct (destructure_messages body) as [e|messages].
  { eexists _, _. split; [reflexivity|]. right. right. eexists. split; [reflexivity|cbn; lia]. }
  destruct (falsy messages || negb (isArray messages)).
  { eexists _, _. split; [reflexivity|]. right. left. eauto. }
  cbn zeta. destruct (provider _) as [e|result].
  - eexists _, _. split; [reflexivity|]. right. right. eexists. split; [reflexivity|cbn; lia].
  - eexists _, _. split; [reflexivity|]. left. eauto.
Qed.

(** X13. A body that is JSON, is not [null], and whose [messages] is missing
    or is not an array is answered 400 with the message of the validation,
    and the hosted model is not called. *)
Theorem POST_rejects_non_array (body : json) (messages : option json) :
  destructure_messages body = Returns messages ->
  isArray messages = false ->
  ChatRoute.handle provider (Returns body) =
    ([], Some (json_error_response 400 "Invalid request: messages array required")).
Proof.
  intros Hd Ha. rewrite handle_eq, Hd, Ha. cbn. by rewrite orb_true_r.
Qed.

(** X14. When the call to the hosted model throws, the route answers 500
    after that single call; the message names the API key exactly when the
    thrown value is an [Error] whose message contains "API key", and is the
    general one otherwise. What was thrown is not sent to the client. *)
Theorem POST_reports_upstream_failure members items (e : Thrown) :
  lookup_member "messages" members = Some (JArr items) ->
  provider (ChatRoute.options_for items) = Throws e ->
  ChatRoute.handle provider (Returns (JObj members)) =
    ([ChatRoute.options_for items],
     Some (json_error_response 500
             (if match e with
                 | JsError message => includes "API key" message
                 | NotAnError => false
                 end
              then "API key configuration error. Please check your GEMINI_API_KEY."
              else "An error occurred while processing your request."))).
Proof.
  intros Hm Hp. rewrite handle_eq. cbn. rewrite Hm. cbn. rewrite Hp.
  destruct e as [message|]; cbn; [destruct (includes "API key" message)|]; reflexivity.
Qed.

(** X15. The body that [submitMessage] sends is never refused by the
    validation of the route, whatever the transcript: the hosted model is
    called once with the messages of the transcript, ids included, and the
    answer is the stream of the model, or 500 when the call throws. *)
Theorem client_body_passes_validation (updatedMessages : list ChatMessage) :
  let options := ChatRoute.options_for (json_of_ChatMessage <$> updatedMessages) in
  ChatRoute.handle provider (Returns (chat_body updatedMessages)) =
    ([options],
     Some match provider options with
          | Returns result => toTextStreamResponse result
          | Throws e => json_error_response 500 (route_error_message e)
          end).
Proof. cbn zeta. rewrite handle_eq. reflexivity. Qed.

End MoreOnRoute.

(** ** More on the chat input *)

(** X16. The Enter key and the submit button agree: a key press calls
    [onSubmit] exactly when the key is Enter, Shift is not held and the
    button is enabled; submitting the form calls it exactly when the button
    is enabled. *)
Theorem enter_submits_iff_button_enabled isLoading key shiftKey input :
  ((exists arg, (ChatInput.handleKeyDown isLoading key shiftKey input).2 = Some arg) <->
   key = "Enter" /\ shiftKey = false /\ ChatInput.submit_disabled isLoading input = false)
  /\ ((exists arg, (ChatInput.handleSubmit isLoading input).2 = Some arg) <->
      ChatInput.submit_disabled isLoading input = false).
Proof.
  pose proof (submit_enabled_iff_calls isLoading input) as Hs.
  split; [|by symmetry].
  unfold ChatInput.handleKeyDown.
  destruct (String.eqb_spec key "Enter") as [->|Hk]; destruct shiftKey; cbn.
  - split; [by intros [? ?]|by intros (_ & ? & _)].
  - split; [intros H; repeat split; by apply Hs|intros (_ & _ & H); by apply Hs].
  - split; [by intros [? ?]|by intros (? & _)].
  - split; [by intros [? ?]|by intros (? & _)].
Qed.

(** X17. What is typed is not lost: an event of the form that does not call
    [onSubmit] leaves [input] as it is (a change sets it to the new value),
    and the event that calls [onSubmit] passes the trimmed text and empties
    the field. *)
Theorem input_kept_unless_submitted isLoading (e : ChatInput.Event) input :
  match e with
  | ChatInput.Change value => ChatInput.handle isLoading e input = (value, None)
  | _ =>
      ChatInput.handle isLoading e input = (input, None)
      \/ ChatInput.handle isLoading e input = ("", Some (trim input))
  end.
Proof.
  destruct e as [value| |key shiftKey]; cbn; [reflexivity| |];
    unfold ChatInput.handleKeyDown, ChatInput.handleSubmit;
    repeat match goal with |- context [if ?c then _ else _] => destruct c end; auto.
Qed.

(** ** The sidebar *)

(** X18. [formatDate] goes by elapsed time, in whole days of 86 400 000 ms,
    not by calendar days: less than one day ago is "Today", one day to less
    than two is "Yesterday", two days to less than seven is that number of
    days followed by " days ago", and from seven days on the date is printed
    by the platform. *)
Theorem formatDate_by_elapsed_days (toLocaleDateString : option Z -> string) (t now : Z) :
  let shown := ConversationSidebar.formatDate toLocaleDateString (Some t) now in
  let days := (now - t) `div` 86400000 in
  (0 <= now - t < 86400000 -> shown = "Today")
  /\ (86400000 <= now - t < 2 * 86400000 -> shown = "Yesterday")
  /\ (2 * 86400000 <= now - t < 7 * 86400000 ->
      shown = pretty days +:+ " days ago" /\ 2 <= days <= 6)
  /\ (7 * 86400000 <= now - t -> shown = toLocaleDateString (Some t)).
Proof.
  cbn zeta. unfold ConversationSidebar.formatDate, ConversationSidebar.day.
  change (1000 * 60 * 60 * 24) with 86400000.
  set (d := (now - t) `div` 86400000).
  assert (86400000 * d <= now - t < 86400000 * d + 86400000) as Hd.
  { subst d. pose proof (Z.div_mod (now - t) 86400000 ltac:(lia)).
    pose proof (Z.mod_pos_bound (now - t) 86400000 ltac:(lia)). lia. }
  split; [|split; [|split]]; intros H.
  - assert (d = 0) as -> by lia. reflexivity.
  - assert (d = 1) as -> by lia. reflexivity.
  - split; [|lia].
    destruct (Z.eqb_spec d 0); [lia|]. destruct (Z.eqb_spec d 1); [lia|].
    destruct (Z.ltb_spec d 7); [reflexivity|lia].
  - destruct (Z.eqb_spec d 0); [lia|]. destruct (Z.eqb_spec d 1); [lia|].
    destruct (Z.ltb_spec d 7); [lia|reflexivity].
Qed.

(** X19. A timestamp later than the clock of the browser is never shown as
    "Today": the day count is negative and is printed as it is, so that one
    millisecond ahead already reads "-1 days ago". A string that is not a
    date is handed to the platform's printing. *)
Theorem formatDate_future_is_negative (toLocaleDateString : option Z -> string) (t now : Z) :
  now < t ->
  let days := (now - t) `div` 86400000 in
  days <= -1
  /\ ConversationSidebar.formatDate toLocaleDateString (Some t) now =
       pretty days +:+ " days ago"
  /\ ConversationSidebar.formatDate toLocaleDateString None now = toLocaleDateString None.
Proof.
  intros H. cbn zeta. unfold ConversationSidebar.formatDate, ConversationSidebar.day.
  change (1000 * 60 * 60 * 24) with 86400000.
  set (d := (now - t) `div` 86400000).
  assert (d <= -1) as Hd.
  { subst d. pose proof (Z.div_mod (now - t) 86400000 ltac:(lia)).
    pose proof (Z.mod_pos_bound (now - t) 86400000 ltac:(lia)). lia. }
  split; [exact Hd|]. split; [|reflexivity].
  destruct (Z.eqb_spec d 0); [lia|]. destruct (Z.eqb_spec d 1); [lia|].
  destruct (Z.ltb_spec d 7); [reflexivity|lia].
Qed.

(** ** The list of bubbles *)

Lemma imap_streaming_false isLoading n (l : list ChatMessage) : forall k,
  (k + length l < n)%nat ->
  ChatContainer.isStreaming <$> imap (λ i, ChatContainer.bubble isLoading n (k + i)) l =
    replicate (length l) false.
Proof.
  induction l as [|m l IH]; intros k Hk; [reflexivity|].
  cbn in Hk. rewrite imap_cons. cbn [fmap list_fmap length replicate]. f_equal.
  - cbn. destruct (Z.eqb_spec (Z.of_nat (k + 0)) (Z.of_nat n - 1)); [lia|].
    by rewrite andb_false_r.
  - rewrite <- (IH (S k)) by lia. f_equal. apply imap_ext. intros i x _. cbn.
    by replace (k + S i)%nat with (S (k + i))%nat by lia.
Qed.

(** Only the last bubble can be streaming. *)
Lemma bubbles_streaming_snoc isLoading (pre : list ChatMessage) m :
  ChatContainer.isStreaming <$> ChatContainer.bubbles isLoading (pre ++ [m]) =
    replicate (length pre) false ++ [isLoading && bool_decide (cm_role m = assistant)].
Proof.
  unfold ChatContainer.bubbles. rewrite imap_app, fmap_app. f_equal.
  - apply (imap_streaming_false isLoading _ pre 0). rewrite length_app. cbn. lia.
  - cbn. rewrite length_app. cbn.
    destruct (Z.eqb_spec (Z.of_nat (length pre + 0)) (Z.of_nat (length pre + 1) - 1));
      [|lia].
    by rewrite andb_true_r.
Qed.

(** X20. In the list of bubbles at most one shows the typing indicator, and
    it can only be the last one: it does when the page is loading and the
    last message is from the assistant. With no message there is no list,
    the welcome screen is shown instead. *)
Theorem typing_only_on_last_bubble isLoading (pre : list ChatMessage) m :
  ChatContainer.typing <$> ChatContainer.bubbles isLoading (pre ++ [m]) =
    replicate (length pre) false ++ [isLoading && bool_decide (cm_role m = assistant)]
  /\ ChatContainer.messages_area isLoading (pre ++ [m]) =
       Some (ChatContainer.bubbles isLoading (pre ++ [m]))
  /\ ChatContainer.messages_area isLoading [] = None.
Proof.
  split; [|split; [|reflexivity]].
  - rewrite <- bubbles_streaming_snoc. unfold ChatContainer.bubbles.
    rewrite !fmap_imap. apply imap_ext. intros i x _. cbn.
    unfold ChatContainer.typing. cbn.
    destruct (cm_role x); [|reflexivity]. by rewrite andb_false_r.
  - unfold ChatContainer.messages_area, ChatContainer.hasMessages.
    rewrite length_app. cbn. by destruct (length pre).
Qed.

(** ** The requests of one submission *)

Section Traffic.
Context {P : Platform}.
Implicit Types (p q : Page P) (message id : string).

Local Ltac exec :=
  unfold mbind, M_bind, mret, M_ret, try_catch, try_finally, throw_Error, throw,
    modify, gets, with_home, response_json;
  cbn [home world requests toasts transcripts fst snd].

Lemma ensure_conversation_requests view p :
  requests (ensure_conversation view p).1 = requests p ++ creation_requests view (world p).
Proof.
  unfold ensure_conversation, creation_requests.
  destruct (negb (truthy_opt (currentConversationId view)) && backendAvailable view).
  2:{ cbn. by rewrite app_nil_r. }
  unfold try_catch, mbind, M_bind. rewrite createConversation_eq. cbn. unfold loaded.
  destruct (serve P _ _ (world p)) as [w [e|resp]]; cbn; [reflexivity|].
  destruct (ok resp); cbn; [|reflexivity].
  destruct (payload resp) as [c|]; cbn; [|reflexivity].
  unfold setCurrentConversationId. exec. rewrite loadConversations_eq. cbn.
  by rewrite <- app_assoc.
Qed.

Lemma ensure_conversation_world_fixed view p :
  negb (truthy_opt (currentConversationId view)) && backendAvailable view = false ->
  ensure_conversation view p = (p, Returns (currentConversationId view)).
Proof. intros G. unfold ensure_conversation. by rewrite G. Qed.

Lemma opening_requests message p :
  requests (opening message p).1 = requests p ++ creation_requests (home p) (world p).
Proof.
  unfold opening, setError, setIsChatLoading. exec.
  match goal with |- context [ensure_conversation ?v ?x] =>
    pose proof (ensure_conversation_requests v x) as R;
    destruct (ensure_conversation_run v x) as (h & w & ts & new & convId & E & _) end.
  rewrite E in *. cbn in R.
  unfold add_user_message, setMessages, updateMessages. exec. rewrite date_now_run. cbn.
  exact R.
Qed.

Lemma save_to_backend_requests view convId message content p :
  requests (save_to_backend view convId message content p).1 =
    requests p ++ saving_requests view convId message content (world p).
Proof.
  unfold save_to_backend, saving_requests. destruct convId as [id|].
  2:{ cbn. by rewrite app_nil_r. }
  destruct (truthy id && backendAvailable view).
  2:{ cbn. by rewrite app_nil_r. }
  unfold addMessages. exec. rewrite fetch_run.
  change (JArr (json_of_new_message <$> [(user, message); (assistant, content)]))
    with (pair_body message content).
  unfold loaded.
  destruct (serve P _ _ (world p)) as [w [e|resp]]; cbn; [reflexivity|].
  destruct (ok resp); cbn; [|reflexivity].
  destruct (payload resp); cbn; [|reflexivity].
  rewrite loadConversations_eq. cbn. by rewrite <- app_assoc.
Qed.

Lemma attempt_requests view convId message upd q :
  let chat := POST_chat (chat_body upd) in
  let answer := serve P _ chat (world q) in
  requests (attempt view convId message upd q).1 =
    requests q ++ [any chat] ++
    match classify answer.2 with
    | Completed values =>
        saving_requests view convId message
          (concat_text (decode_all (new_TextDecoder P) values)) (Date_now P answer.1).1
    | _ => []
    end.
Proof.
  cbn zeta.
  destruct (attempt view convId message upd q) as [p' out] eqn:Ea.
  unfold attempt, stream_and_save in Ea.
  unfold mbind, M_bind, try_catch, try_finally, throw_Error, throw in Ea.
  rewrite fetch_run in Ea. cbn [home world requests toasts transcripts] in Ea.
  destruct (serve P _ (POST_chat (chat_body upd)) (world q)) as [w1 [e|resp]];
    cbn [fst snd classify] in *.
  { unfold setError, updateMessages, setIsChatLoading, modify, with_home in Ea.
    cbn in Ea. by injection Ea as <- <-. }
  destruct (ok resp); cbn [negb] in *.
  2:{ unfold setError, updateMessages, setIsChatLoading, modify, with_home in Ea.
      cbn in Ea. by injection Ea as <- <-. }
  destruct (payload resp) as [body|].
  2:{ unfold setError, updateMessages, setIsChatLoading, modify, with_home in Ea.
      cbn in Ea. by injection Ea as <- <-. }
  rewrite date_now_run in Ea.
  cbn [home world requests toasts transcripts fst snd] in Ea.
  set (aid := pretty (_ + 1)) in Ea.
  unfold updateMessages at 1 in Ea. unfold modify in Ea.
  cbn [home world requests toasts transcripts fst snd] in Ea.
  match type of Ea with context [read_loop aid ?d "" ?vs ?fin ?x] =>
    destruct (read_loop_run aid fin vs d "" x) as (h1 & E1 & _ & _) end.
  rewrite E1 in Ea. cbn [home world requests toasts transcripts fst snd] in Ea.
  destruct (ts_end body) as [|e].
  - match type of Ea with context [save_to_backend ?v ?c ?m ?a ?x] =>
      pose proof (save_to_backend_requests v c m a x) as R;
      destruct (save_to_backend v c m a x) as [p2 out2] end.
    cbn [home world requests toasts transcripts fst snd] in R.
    unfold setError, updateMessages, setIsChatLoading, modify, with_home in Ea.
    destruct out2 as [e|[]]; cbn in Ea; injection Ea as <- <-; cbn;
      rewrite R, <- !app_assoc; reflexivity.
  - unfold setError, updateMessages, setIsChatLoading, modify, with_home in Ea.
    cbn in Ea. by injection Ea as <- <-.
Qed.

(** X22. The requests of one submission, all of them and in order: first the
    creation of a conversation, followed by a reload of the list when it
    succeeds, if there is no current conversation and the backend is
    available; then the one request to the relay; then, only when the stream
    has completed, the conversation id is not empty and the backend is
    available, the one call that saves the exchange, followed by a reload
    when it succeeds. Nothing is sent twice. *)
Theorem requests_of_a_submission message p :
  exists uid,
    let chat := POST_chat (chat_body (messages (home p) ++ [mkChatMessage uid user message])) in
    requests (submitMessage message p).1 =
      requests p
      ++ creation_requests (home p) (world p)
      ++ [any chat]
      ++ match classify (relay_answer message p) with
         | Completed values =>
             saving_requests (home p) (conversation_used message p) message
               (concat_text (decode_all (new_TextDecoder P) values))
               (world_at_save message p)
         | _ => []
         end.
Proof.
  pose proof (opening_requests message p) as Hopen.
  destruct (opening_run message p)
    as (h & w & ts & new & convId & uid & E & _).
  cbn zeta in E. exists uid. cbn zeta.
  unfold relay_answer, conversation_used, world_at_save.
  rewrite (submitMessage_attempt _ _ _ _ _ _ E), E in *. cbn [fst requests world] in *.
  rewrite attempt_requests. cbn [requests world]. rewrite Hopen, <- !app_assoc.
  reflexivity.
Qed.
End Traffic.

(** ** The bubbles of a stream *)

Lemma bubbles_typing_snoc (pre : list ChatMessage) aid a :
  ChatContainer.typing <$> ChatContainer.bubbles true (pre ++ [mkChatMessage aid assistant a])
    = replicate (length pre) false ++ [true].
Proof.
  transitivity (ChatContainer.isStreaming <$>
                  ChatContainer.bubbles true (pre ++ [mkChatMessage aid assistant a])).
  - unfold ChatContainer.bubbles. rewrite !fmap_imap. apply imap_ext. intros i x _. cbn.
    unfold ChatContainer.typing. cbn.
    destruct (cm_role x); [|reflexivity]. by rewrite andb_false_r.
  - by rewrite bubbles_streaming_snoc.
Qed.

Lemma opening_sets_loading {P : Platform} message (p : Page P) :
  isChatLoading (home (opening message p).1) = true.
Proof.
  unfold opening, setError, setIsChatLoading, mbind, M_bind, gets, modify, with_home.
  cbn [home world requests toasts transcripts fst snd].
  match goal with |- context [ensure_conversation ?v ?x] =>
    destruct (ensure_conversation_run v x) as (h & w & ts & new & convId & E & Hc & _) end.
  rewrite E. injection Hc as _ Hl _. cbn in Hl.
  unfold add_user_message, setMessages, updateMessages, mbind, M_bind, mret, M_ret, modify.
  rewrite date_now_run. cbn. exact Hl.
Qed.

(** X21. While a reply is streamed the typing indicator is on that reply and
    nowhere else: the page is loading when the stream starts, and in every
    transcript rendered from the empty assistant entry to the last chunk,
    shown while loading, the last bubble and only the last has the
    indicator. The first of these transcripts shows the empty reply as
    "...". *)
Theorem typing_indicator_follows_stream {P : Platform} message (p : Page P) values :
  classify (relay_answer message p) = Completed values ->
  isChatLoading (home (opening message p).1) = true
  /\ exists before during tail,
       transcripts (submitMessage message p).1 = before ++ during ++ tail
       /\ length during = S (length values)
       /\ Forall (λ t, ChatContainer.typing <$> ChatContainer.bubbles true t =
                       replicate (length t - 1) false ++ [true]) during
       /\ exists first last_bubble,
            head during = Some first
            /\ last (ChatContainer.bubbles true first) = Some last_bubble
            /\ ChatContainer.shown_text (ChatContainer.role last_bubble)
                 (ChatContainer.content last_bubble) = "...".
Proof.
  intros Hrelay. split; [apply opening_sets_loading|].
  destruct (submitMessage_run message p)
    as (q & new & convId & uid & E & _ & Ht & _ & _ & _ & R).
  cbn zeta in R. rewrite Hrelay in R.
  destruct R as (aid & saved & tail & _ & Htr & _).
  set (upd := messages (home p) ++ [mkChatMessage uid user message]) in *.
  set (base := upd ++ [mkChatMessage aid assistant ""]) in *.
  set (contents := running "" (decode_all (new_TextDecoder P) values)) in *.
  exists (transcripts q), (base :: ((λ a, set_assistant_content aid a base) <$> contents)), tail.
  split; [exact Htr|]. split; [|split].
  - cbn. unfold contents. by rewrite length_fmap, running_length, decode_all_length.
  - constructor.
    + cbv beta. unfold base. rewrite bubbles_typing_snoc, length_app. cbn.
      by replace (length upd + 1 - 1)%nat with (length upd) by lia.
    + apply Forall_fmap, Forall_forall. intros a _. unfold compose, base. cbv beta.
      rewrite set_assistant_content_snoc, bubbles_typing_snoc, length_app. cbn.
      by replace (length (set_assistant_content aid a upd) + 1 - 1)%nat
        with (length (set_assistant_content aid a upd)) by lia.
  - exists base. unfold base, ChatContainer.bubbles. rewrite imap_app. cbn.
    eexists. split; [reflexivity|]. split; [apply last_snoc|]. reflexivity.
Qed.

(** ** More concrete runs *)

Lemma loaded_transcript_ids_distinct_witness :
  NoDup (cm_id <$> (chat_of_Message <$>
    [mkMessage 1 user "Hello" "t1"; mkMessage 2 assistant "Hi there" "t1"])).
Proof.
  apply loaded_transcript_ids_distinct. cbn. apply NoDup_cons. split.
  - intros H. apply list_elem_of_singleton in H. discriminate.
  - apply NoDup_singleton.
Defined.

(** A page that believes the backend is there while it is down. *)
Lemma first_exchange_is_saved_under_the_new_id_witness :
  let p := @start_Page deployment (mkHomeState [] None true false true [] false None)
             (mkDeployment Backend.empty false (demo_provider ["Hi "; "there"] StreamDone) 1000) in
  List.filter is_POST_messages (requests (submitMessage "Hello" p).1) = []
  /\ exists aid rest,
       messages (home (submitMessage "Hello" p).1) =
         rest ++ [mkChatMessage aid assistant "Hi there"].
Proof.
  intros p.
  apply (first_exchange_is_saved_under_the_new_id (P := deployment) "Hello" p
           ["Hi "; "there"]); vm_compute; reflexivity.
Defined.

(** The current conversation has been deleted elsewhere: the store answers
    not-found to the call that saves the exchange. *)
Lemma save_failure_keeps_the_reply_witness :
  let p := @start_Page deployment
             (mkHomeState [] (Some "conv-9") true false true [] false None)
             (mkDeployment Backend.empty true (demo_provider ["Hi "; "there"] StreamDone) 1000) in
  error (home (submitMessage "Hello" p).1) = Some "Failed to add messages"
  /\ exists aid rest,
       messages (home (submitMessage "Hello" p).1) =
         rest ++ [mkChatMessage aid assistant "Hi there"].
Proof.
  intros p.
  destruct (save_failure_keeps_the_reply (P := deployment) "Hello" p "conv-9" ["Hi "; "there"])
    as (Herr & _ & _ & Hkeep); try (vm_compute; reflexivity).
  split; [exact Herr|]. apply Hkeep. vm_compute. discriminate.
Defined.

Lemma POST_rejects_non_array_witness :
  ChatRoute.handle (demo_provider [] StreamDone) (Returns (JObj [("messages", JStr "Hello")])) =
    ([], Some (json_error_response 400 "Invalid request: messages array required")).
Proof.
  apply (POST_rejects_non_array (demo_provider [] StreamDone)
           (JObj [("messages", JStr "Hello")]) (Some (JStr "Hello"))); reflexivity.
Defined.

Lemma POST_reports_upstream_failure_witness :
  ChatRoute.handle (λ _, Throws (JsError "Google Generative AI API key is missing"))
    (Returns (JObj [("messages", JArr [])])) =
    ([ChatRoute.options_for []],
     Some (json_error_response 500
             "API key configuration error. Please check your GEMINI_API_KEY.")).
Proof.
  apply (POST_reports_upstream_failure
           (λ _, Throws (JsError "Google Generative AI API key is missing"))
           [("messages", JArr [])] [] (JsError "Google Generative AI API key is missing"));
    reflexivity.
Defined.

Lemma formatDate_future_is_negative_witness :
  ConversationSidebar.formatDate (λ _, "1/1/2026") (Some 1001) 1000 = "-1 days ago".
Proof.
  destruct (formatDate_future_is_negative (λ _, "1/1/2026") 1001 1000) as (_ & H & _);
    [lia|exact H].
Defined.

Lemma typing_indicator_follows_stream_witness :
  exists before during tail,
    transcripts (submitMessage "Hello" (demo_page true ["Hi "; "there"] StreamDone)).1 =
      before ++ during ++ tail
    /\ length during = 3%nat.
Proof.
  destruct (typing_indicator_follows_stream (P := deployment) "Hello"
              (demo_page true ["Hi "; "there"] StreamDone) ["Hi "; "there"])
    as (_ & before & during & tail & Htr & Hlen & _); [vm_compute; reflexivity|].
  exists before, during, tail. split; [exact Htr|exact Hlen].
Defined.

(** The hosted model cannot be reached: the route answers 500 and the page
    reports the failed exchange. *)
Lemma relay_failure_is_reported_witness :
  let p := @start_Page deployment (mkHomeState [] None true false false [] false None)
             (mkDeployment Backend.empty false (λ _, Throws (JsError "fetch failed")) 1000) in
  error (home (submitMessage "Hello" p).1) = Some "Failed to get response".
Proof.
  intros p.
  destruct (relay_failure_is_reported (P := deployment) "Hello" p) as (H & _).
  edestruct H as [Herr _]; [vm_compute; reflexivity|reflexivity|exact Herr].
Defined.

Lemma formatDate_by_elapsed_days_witness :
  ConversationSidebar.formatDate (λ _, "1/1/2026") (Some 0) 259200000 = "3 days ago".
Proof.
  destruct (formatDate_by_elapsed_days (λ _, "1/1/2026") 0 259200000) as (_ & _ & H & _).
  destruct H as [H _]; [lia|exact H].
Defined.

(** ** The handlers with their waits are the handlers

    Left alone until it is over, a handler written with its waits ends in
    the state that the handler written without them gives. *)

Section AgreementFacts.
Context {S : Type}.

Lemma agrees_sync {A} (c : M S A) : agrees (sync c) c.
Proof. intros k s. unfold sync. by destruct (c s). Qed.

Lemma agrees_io {A} site (c : M S A) : agrees (io site c) c.
Proof. intros k s. unfold io, settle. destruct (c s) as [s' out]. cbn. by destruct (k out s'). Qed.

Lemma agrees_ret {A} (a : A) : agrees (S := S) (mret a) (mret a).
Proof. intros k s. reflexivity. Qed.

Lemma agrees_bind {A B} (j : Job S A) (c : M S A) (f : A -> Job S B) (g : A -> M S B) :
  agrees j c -> (forall a, agrees (f a) (g a)) -> agrees (j ≫= f) (c ≫= g).
Proof.
  intros Hj Hf k s. unfold mbind, Job_bind, M_bind. rewrite Hj.
  destruct (c s) as [s' [e|a]]; cbn; [reflexivity|]. by rewrite Hf.
Qed.

Lemma agrees_try_catch {A} (body : Job S A) (c : M S A) handler handler' :
  agrees body c -> (forall e, agrees (handler e) (handler' e)) ->
  agrees (async_try_catch body handler) (try_catch c handler').
Proof.
  intros Hb Hh k s. unfold async_try_catch, try_catch. rewrite Hb.
  destruct (c s) as [s' [e|a]]; cbn; [|reflexivity]. by rewrite Hh.
Qed.

Lemma agrees_try_finally {A} (body : Job S A) (c : M S A) cleanup cleanup' :
  agrees body c -> agrees cleanup cleanup' ->
  agrees (async_try_finally body cleanup) (try_finally c cleanup').
Proof.
  intros Hb Hc k s. unfold async_try_finally, try_finally. rewrite Hb.
  destruct (c s) as [s' out]; cbn. rewrite Hc.
  by destruct (cleanup' s') as [s'' [e|[]]].
Qed.

Lemma agrees_wait {A} site (j : Job S A) (c : M S A) :
  agrees j c -> agrees (io site (mret ());; j) c.
Proof.
  intros H k s. specialize (H k s). unfold mbind, Job_bind, io, settle in *. cbn.
  by destruct (j k s).
Qed.

Lemma alone_settle (j : Job S unit) s : alone j s = settle (j finished s).
Proof. unfold alone, settle. by destruct (j finished s). Qed.

Lemma agrees_alone (j : Job S unit) (c : M S unit) s :
  agrees j c -> alone j s = (c s).1.
Proof. intros H. rewrite alone_settle. apply H. Qed.

End AgreementFacts.

Section HandlersAgree.
Context {P : Platform}.
Implicit Types (p q : Page P) (message id : string).

Lemma agrees_bind_before {A B} (k : Outcome B -> Run (Page P))
    (j : Job (Page P) A) (c : M (Page P) A) f g :
  agrees j c -> (forall a, agrees_before k (f a) (g a)) ->
  agrees_before k (j ≫= f) (c ≫= g).
Proof.
  intros Hj Hf p. unfold mbind, Job_bind, M_bind. rewrite Hj.
  destruct (c p) as [p' [e|a]]; cbn; [reflexivity|]. by rewrite Hf.
Qed.

Lemma loadConversations_agrees :
  agrees (@Async.loadConversations P) loadConversations.
Proof.
  unfold Async.loadConversations, loadConversations.
  apply agrees_try_finally; [|apply agrees_sync].
  apply agrees_try_catch; [|intros e; apply agrees_sync].
  apply agrees_bind; [apply agrees_io|intros convs; apply agrees_sync].
Qed.

Lemma ensure_conversation_agrees view :
  agrees (@Async.ensure_conversation P view) (ensure_conversation view).
Proof.
  unfold Async.ensure_conversation, ensure_conversation.
  destruct (negb (truthy_opt (currentConversationId view)) && backendAvailable view);
    [|apply agrees_ret].
  apply agrees_try_catch.
  - apply agrees_bind; [apply agrees_io|intros newConv].
    apply agrees_bind; [apply agrees_sync|intros _].
    apply agrees_bind; [apply loadConversations_agrees|intros _; apply agrees_ret].
  - intros e. apply agrees_bind; [apply agrees_sync|intros _; apply agrees_ret].
Qed.

Lemma handleNewConversation_agrees :
  agrees (@Async.handleNewConversation P) handleNewConversation.
Proof.
  unfold Async.handleNewConversation, handleNewConversation.
  apply agrees_bind; [apply agrees_sync|intros view].
  apply agrees_bind; [apply agrees_sync|intros _].
  apply agrees_bind; [apply agrees_sync|intros _].
  destruct (backendAvailable view); [|apply agrees_ret].
  apply agrees_try_catch; [|intros e; apply agrees_sync].
  apply agrees_bind; [apply agrees_io|intros newConv].
  apply agrees_bind; [apply agrees_sync|intros _]. apply loadConversations_agrees.
Qed.

Lemma opening_agrees message : agrees (@Async.opening P message) (opening message).
Proof.
  unfold Async.opening, opening.
  apply agrees_bind; [apply agrees_sync|intros view].
  apply agrees_bind; [apply agrees_sync|intros _].
  apply agrees_bind; [apply agrees_sync|intros _].
  apply agrees_bind; [apply ensure_conversation_agrees|intros convId].
  apply agrees_bind; [apply agrees_sync|intros updatedMessages]. apply agrees_ret.
Qed.

Lemma read_loop_agrees assistantId values fin : forall decoder assistantContent,
  agrees (@Async.read_loop P assistantId decoder assistantContent values fin)
    (read_loop assistantId decoder assistantContent values fin).
Proof.
  induction values as [|value rest IH]; intros decoder assistantContent; cbn.
  - apply agrees_io.
  - apply agrees_wait. destruct (decode P decoder value) as [decoder' chunk].
    apply agrees_bind; [apply agrees_sync|intros _; apply IH].
Qed.

(** The reload that is not awaited: what it does after its wait and the
    reset of the loading flag can be done in either order. *)
Lemma unawaited_loadConversations_agrees k :
  closing k -> agrees_before k (unawaited (@Async.loadConversations P)) loadConversations.
Proof.
  intros Hk p. unfold unawaited, Async.loadConversations, loadConversations.
  unfold async_try_finally, async_try_catch, try_finally, try_catch, io, sync,
    mbind, Job_bind, M_bind, finished, settle.
  destruct (getConversations p) as [p' [e|convs]]; rewrite !Hk; cbn; reflexivity.
Qed.

Lemma save_to_backend_agrees k view convId message assistantContent :
  closing k ->
  agrees_before k (@Async.save_to_backend P view convId message assistantContent)
    (save_to_backend view convId message assistantContent).
Proof.
  intros Hk. unfold Async.save_to_backend, save_to_backend.
  destruct convId as [id|]; [|by intros p].
  destruct (truthy id && backendAvailable view); [|by intros p].
  apply agrees_bind_before; [apply agrees_io|intros _].
  by apply unawaited_loadConversations_agrees.
Qed.

Lemma stream_and_save_agrees k view convId message updatedMessages :
  closing k ->
  agrees_before k (@Async.stream_and_save P view convId message updatedMessages)
    (stream_and_save view convId message updatedMessages).
Proof.
  intros Hk. unfold Async.stream_and_save, stream_and_save.
  apply agrees_bind_before; [apply agrees_io|intros response].
  destruct (negb (ok response)); [intros p; apply agrees_sync|].
  destruct (payload response) as [body|]; [|intros p; apply agrees_sync].
  apply agrees_bind_before; [apply agrees_sync|intros now].
  apply agrees_bind_before; [apply agrees_sync|intros _].
  apply agrees_bind_before; [apply read_loop_agrees|intros assistantContent].
  by apply save_to_backend_agrees.
Qed.

Lemma attempt_alone view convId message updatedMessages p :
  alone (Async.attempt view convId message updatedMessages) p =
    (attempt view convId message updatedMessages p).1.
Proof.
  rewrite alone_settle.
  unfold Async.attempt, async_try_finally, async_try_catch.
  rewrite stream_and_save_agrees by (intros q; reflexivity).
  unfold attempt, try_finally, try_catch.
  destruct (stream_and_save view convId message updatedMessages p) as [p' [e|[]]];
    reflexivity.
Qed.

(** A submission that is left alone until it is over does what
    [submitMessage] does. *)
Lemma submitMessage_alone message p :
  alone (Async.submitMessage message) p = (submitMessage message p).1.
Proof.
  unfold alone, Async.submitMessage, submitMessage.
  pose proof (opening_agrees message) as H.
  unfold mbind at 1, Job_bind at 1.
  match goal with |- context [Async.opening message ?k p] => specialize (H k p) end.
  unfold settle in H.
  destruct (Async.opening message _ p) as [s' t]. cbn in H. rewrite H. clear H.
  unfold mbind, M_bind.
  destruct (opening message p) as [q [e|[[view convId] updatedMessages]]]; cbn;
    [reflexivity|].
  rewrite <- attempt_alone. unfold alone.
  by destruct (Async.attempt view convId message updatedMessages finished q).
Qed.

Lemma handleNewConversation_alone p :
  alone Async.handleNewConversation p = (handleNewConversation p).1.
Proof. apply agrees_alone, handleNewConversation_agrees. Qed.

End HandlersAgree.

(** ** What the chat area hands to [submitMessage] *)

Section Submissions.
Context {P : Platform}.

Lemma example_questions_nonempty index question :
  WelcomeScreen.onClick index = Some question -> question <> "".
Proof.
  unfold WelcomeScreen.onClick.
  do 4 (destruct index as [|index]; [intros [= <-]; discriminate|]).
  intros [=].
Qed.

(** X24. Every message that the chat area hands to [submitMessage] is not
    empty. From the form of the chat input it is the trimmed input, and the
    page is not loading when it is handed over; from the welcome screen it
    is the question of the example that was clicked, the transcript is then
    empty, and nothing is said of the loading flag. No other event of the
    chat area calls [submitMessage]. *)
Theorem submitted_message_nonempty (b : Browser.State (P := P)) ev message :
  Browser.onSubmit_call b ev = Some message ->
  message <> ""
  /\ match ev with
     | Browser.Form _ =>
         message = trim (Browser.input b)
         /\ isChatLoading (home (Browser.page b)) = false
     | Browser.ExampleClick index =>
         messages (home (Browser.page b)) = []
         /\ WelcomeScreen.onClick index = Some message
     | _ => False
     end.
Proof.
  destruct ev as [e|index| |i]; cbn; try discriminate.
  - destruct (ChatInput.handle _ e (Browser.input b)) as [input' call] eqn:E. cbn.
    intros ->. destruct (handle_call _ _ _ _ _ E) as (Ha & Hne & Hl). by repeat split.
  - destruct (messages (home (Browser.page b))) as [|m l]; cbn; [|discriminate].
    intros H. split; [by eapply example_questions_nonempty|by split].
Qed.

(** X25. A double click on an example of the welcome screen starts two
    submissions. On a page with an empty transcript, no current conversation
    and the backend available, the first click leaves its submission
    waiting for the new conversation; the transcript is still empty, so the
    welcome screen is still there, and the second click starts a second
    submission although the page is loading: two creation requests have
    been sent and both submissions are suspended. *)
Theorem double_click_on_example_submits_twice (p : Page P) input index question :
  WelcomeScreen.onClick index = Some question ->
  messages (home p) = [] ->
  truthy_opt (currentConversationId (home p)) = false ->
  backendAvailable (home p) = true ->
  let create := POST_conversations (JObj [("title", JNull)]) in
  let b := Browser.run (Browser.mkState p input [])
             [Browser.ExampleClick index; Browser.ExampleClick index] in
  Browser.waits b = [await_createConversation; await_createConversation]
  /\ requests (Browser.page b) = requests p ++ [any create; any create]
  /\ isChatLoading (home (Browser.page b)) = true
  /\ messages (home (Browser.page b)) = [].
Proof.
  intros Hq Hm Hc Hb. cbn zeta.
  unfold Browser.run. cbn [foldl].
  assert (forall (b : Browser.State (P := P)),
            messages (home (Browser.page b)) = [] ->
            truthy_opt (currentConversationId (home (Browser.page b))) = false ->
            backendAvailable (home (Browser.page b)) = true ->
            let b' := Browser.step b (Browser.ExampleClick index) in
            Browser.waits b' = Browser.waits b ++ [await_createConversation]
            /\ requests (Browser.page b') =
                 requests (Browser.page b) ++ [any (POST_conversations (JObj [("title", JNull)]))]
            /\ isChatLoading (home (Browser.page b')) = true
            /\ messages (home (Browser.page b')) = []
            /\ currentConversationId (home (Browser.page b')) =
                 currentConversationId (home (Browser.page b))
            /\ backendAvailable (home (Browser.page b')) = true) as Hstep.
  { intros b Hm' Hc' Hb'. cbn zeta. unfold Browser.step, Browser.onSubmit_call.
    rewrite Hm', Hq. cbn [ChatContainer.hasMessages length Nat.ltb Nat.leb].
    unfold Browser.call, Async.submitMessage, Async.opening, Async.ensure_conversation.
    unfold mbind, Job_bind, sync, io, async_try_catch. cbn.
    rewrite Hc', Hb'. cbn. rewrite createConversation_eq. cbn.
    unfold Browser.waits. rewrite fmap_app.
    repeat split; try reflexivity; assumption. }
  destruct (Hstep (Browser.mkState p input []) Hm Hc Hb) as (W1 & R1 & L1 & M1 & C1 & B1).
  cbn zeta in *. cbn [Browser.page] in C1, R1.
  destruct (Hstep _ M1 (eq_trans (f_equal truthy_opt C1) Hc) B1) as (W2 & R2 & L2 & M2 & _).
  cbn zeta in *. rewrite W2, W1, R2, R1.
  split; [reflexivity|]. split; [by rewrite <- app_assoc|]. by split.
Qed.

End Submissions.

Lemma submitted_message_nonempty_witness :
  let b := Browser.mkState (demo_page true [] StreamDone) "  Hello " [] in
  "Hello" <> ""
  /\ "Hello" = trim (Browser.input b)
     /\ isChatLoading (home (Browser.page b)) = false.
Proof.
  intros b.
  apply (submitted_message_nonempty b (Browser.Form ChatInput.Submit) "Hello").
  vm_compute. reflexivity.
Defined.

Lemma double_click_on_example_submits_twice_witness :
  Browser.waits
    (Browser.run (Browser.mkState (demo_page true ["Hi "; "there"] StreamDone) "" [])
       [Browser.ExampleClick 1; Browser.ExampleClick 1]) =
    [await_createConversation; await_createConversation].
Proof.
  apply (double_click_on_example_submits_twice (P := deployment)
           (demo_page true ["Hi "; "there"] StreamDone) "" 1
           "How can I reduce my Google Cloud costs while maintaining performance?");
    reflexivity.
Defined.
